(** * Knuspr API client: a shallow embedding of its request pipeline

    The development follows the Python package [knuspr]: the values that
    [json.loads] produces, the exception hierarchy of [exceptions.py], the
    records of [models.py], the pacer of [rate_limiter.py], the session
    handler of [auth.py] and the gateway of [client.py].

    Methods are computations over an explicit object state that may read the
    monotonic clock, sleep and send a request; a world with a server and a
    clock runs them.  JSON floats are binary64 floats; seconds on the clock
    are exact rationals.  What the package imports from elsewhere (endpoint
    paths, [int], [str], pydantic validation) is an interface, [Externals]. *)

From Stdlib Require Import ZArith List String Bool QArith Lqa Lia Floats DecimalString.
Import ListNotations.
Open Scope string_scope.
Open Scope Z_scope.

Set Warnings "-register-all,-inexact-float".

(** ** Values produced by [response.json()] *)

(** What [json.loads] returns: [None], [bool], [int], [float], [str], [list]
    and [dict].  A [dict] keeps its insertion order; its keys are strings and
    are pairwise distinct. *)
Inductive value : Type :=
| VNone
| VBool (b : bool)
| VInt (n : Z)
| VFloat (f : float)
| VStr (s : string)
| VList (l : list value)
| VDict (d : list (string * value)).

(** Python truth value testing, as used by [if x], [x and y], [x or y], [not x]. *)
Definition truthy (v : value) : bool :=
  match v with
  | VNone => false
  | VBool b => b
  | VInt n => negb (n =? 0)
  | VFloat f => negb (PrimFloat.eqb f 0%float)
  | VStr s => negb (String.eqb s "")
  | VList l => match l with [] => false | _ :: _ => true end
  | VDict d => match d with [] => false | _ :: _ => true end
  end.

(** [isinstance(v, int)]: [bool] is a subclass of [int]. *)
Definition isinstance_int (v : value) : bool :=
  match v with VInt _ | VBool _ => true | _ => false end.

Definition isinstance_list (v : value) : bool :=
  match v with VList _ => true | _ => false end.

Definition isinstance_dict (v : value) : bool :=
  match v with VDict _ => true | _ => false end.

(** The float of a small non-negative integer constant. *)
Definition float_of_Z (k : Z) : float := PrimFloat.of_uint63 (Uint63.of_Z k).

(** [v == k] for an integer constant [k]: numbers compare by value, [True]
    and [False] count as [1] and [0], any other value is unequal. *)
Definition py_eq_int (v : value) (k : Z) : bool :=
  match v with
  | VInt n => n =? k
  | VBool b => Z.b2z b =? k
  | VFloat f => PrimFloat.eqb f (float_of_Z k)
  | _ => false
  end.

(** [v in (k1, k2, ...)] *)
Definition py_in (v : value) (ks : list Z) : bool := existsb (py_eq_int v) ks.

(** [v >= k], evaluated only where [isinstance(v, int)] holds. *)
Definition py_int_ge (v : value) (k : Z) : bool :=
  match v with
  | VInt n => k <=? n
  | VBool b => k <=? Z.b2z b
  | _ => false
  end.

(** [v == s] for a string constant [s]. *)
Definition py_eq_str (v : value) (s : string) : bool :=
  match v with VStr t => String.eqb t s | _ => false end.

Fixpoint dict_lookup (k : string) (d : list (string * value)) : option value :=
  match d with
  | [] => None
  | (k', v) :: d' => if String.eqb k' k then Some v else dict_lookup k d'
  end.

(** [d.get(k, default)] on a [dict]. *)
Definition dict_get (d : list (string * value)) (k : string) (default : value) : value :=
  match dict_lookup k d with Some v => v | None => default end.

(** [d[k] = v] on a [dict]: an existing key keeps its position, a new key goes
    to the end. *)
Fixpoint dict_set (d : list (string * value)) (k : string) (v : value)
  : list (string * value) :=
  match d with
  | [] => [(k, v)]
  | (k', v') :: d' =>
      if String.eqb k' k then (k', v) :: d' else (k', v') :: dict_set d' k v
  end.

(** ** exceptions.py, and the exceptions of the libraries and the interpreter *)

Inductive exn : Type :=
| KnusprError (msg : string)
| AuthenticationError (msg : string)
| RateLimitError (msg : string)
| APIError (message : value) (status_code : value)   (* whatever the envelope held *)
| NetworkError (msg : string)
| HTTPStatusError (status_code : Z)     (* httpx, from [raise_for_status] *)
| JSONDecodeError                       (* [response.json()] on a non-JSON body *)
| ValidationError                       (* pydantic *)
| AttributeError
| TypeError
| KeyError
| IndexError
| ValueError
| OtherException (name : string).

(** The classes of [exceptions.py]; all derive from [KnusprError]. *)
Definition is_KnusprError (e : exn) : bool :=
  match e with
  | KnusprError _ | AuthenticationError _ | RateLimitError _
  | APIError _ _ | NetworkError _ => true
  | _ => false
  end.

Inductive result (A : Type) : Type :=
| Ok (a : A)
| Raise (e : exn).
Arguments Ok {A} a.
Arguments Raise {A} e.

Definition rbind {A B : Type} (r : result A) (k : A -> result B) : result B :=
  match r with Ok a => k a | Raise e => Raise e end.

Declare Scope result_scope.
Delimit Scope result_scope with result.
Notation "x <- r ;; k" := (rbind r (fun x => k))
  (at level 61, r at next level, right associativity) : result_scope.

Definition of_option {A : Type} (o : option A) (e : exn) : result A :=
  match o with Some a => Ok a | None => Raise e end.

(** [for x in l: ys.append(f(x))], stopping at the first exception. *)
Fixpoint mapM {A B : Type} (f : A -> result B) (l : list A) : result (list B) :=
  match l with
  | [] => Ok []
  | x :: l' => (y <- f x ;; ys <- mapM f l' ;; Ok (y :: ys))%result
  end.

(** [obj.get(key, default)]: only a [dict] has the method. *)
Definition py_get (obj : value) (key : string) (default : value) : result value :=
  match obj with
  | VDict d => Ok (dict_get d key default)
  | _ => Raise AttributeError
  end.

(** [obj[0]] *)
Definition py_getitem0 (obj : value) : result value :=
  match obj with
  | VList (x :: _) => Ok x
  | VList [] => Raise IndexError
  | VStr (String c _) => Ok (VStr (String c ""))
  | VStr "" => Raise IndexError
  | VDict _ => Raise KeyError
  | _ => Raise TypeError
  end.

(** [obj[key] = v] for a string [key]. *)
Definition py_setitem (obj : value) (key : string) (v : value) : result value :=
  match obj with
  | VDict d => Ok (VDict (dict_set d key v))
  | _ => Raise TypeError
  end.

Fixpoint chars (s : string) : list value :=
  match s with
  | EmptyString => []
  | String c s' => VStr (String c "") :: chars s'
  end.

(** The elements that [for x in obj] visits. *)
Definition py_iter (obj : value) : result (list value) :=
  match obj with
  | VList l => Ok l
  | VDict d => Ok (map (fun kv => VStr (fst kv)) d)
  | VStr s => Ok (chars s)
  | _ => Raise TypeError
  end.

(** ** models.py *)

Record OrderProduct := {
  op_product_id : option (string + Z);
  op_product_name : option string;
  op_name : option string;
  op_quantity : option Z;
  op_price : option float;
  op_total_price : option float;
  op_brand : option string;
  op_extra : list (string * value)
}.

(** [x or y] on [str | None] operands: the first operand when it is truthy. *)
Definition str_or (x : option string) (y : option string) : option string :=
  match x with
  | Some s => if String.eqb s "" then y else Some s
  | None => y
  end.

(** [return self.product_name or self.name or "Unknown"] *)
Definition display_name (self : OrderProduct) : string :=
  match str_or (str_or (op_product_name self) (op_name self)) (Some "Unknown") with
  | Some s => s
  | None => "Unknown"
  end.

Definition mkOrderProduct (product_name name : option string) : OrderProduct :=
  {| op_product_id := None; op_product_name := product_name; op_name := name;
     op_quantity := None; op_price := None; op_total_price := None;
     op_brand := None; op_extra := [] |}.

Record SearchResult := {
  sr_id : Z;
  sr_name : string;
  sr_price : value;
  sr_brand : string;
  sr_amount : string;
  sr_badge : option string;
  sr_favourite : bool;
  sr_in_stock : bool;
  sr_image_path : option string;
  sr_extra : list (string * value)
}.

Record CartItem := {
  ci_order_field_id : string;
  ci_product_id : Z;
  ci_product_name : string;
  ci_quantity : Z;
  ci_price : float;
  ci_primary_category_name : string;
  ci_brand : string;
  ci_extra : list (string * value)
}.

Record Cart := {
  total_price : float;
  total_items : Z;
  can_make_order : bool;
  items : list CartItem
}.

Record DeliverySlot := {
  ds_id : option (string + Z);
  ds_start : option string;
  ds_end : option string;
  ds_is_available : bool;
  ds_price : option float;
  ds_extra : list (string * value)
}.

(** ** What the package imports

    The module [knuspr.endpoints] (path constants), the builtins [int] and
    [str], and pydantic's validation are not part of the package's own code;
    the embedding takes them as an interface.  A validator answers [None]
    where pydantic raises [ValidationError], [py_int] answers [None] where
    [int(s)] raises [ValueError]. *)
Class Externals := {
  LOGIN : string;
  LOGOUT : string;
  SEARCH : string;
  CART : string;
  TIMESLOTS : string;
  py_int : string -> option Z;
  py_str : value -> string;
  SearchResult_model_validate : value -> option SearchResult;
  CartItem_model_validate : value -> option CartItem;
  DeliverySlot_model_validate : value -> option DeliverySlot;
  validate_float : value -> option float;
  validate_bool : value -> option bool
}.

(** ** config.py *)

Record KnusprConfig := {
  username : string;
  password : string;
  base_url : string;
  language : string;
  min_request_interval : Q;
  request_timeout : Q;
  debug : bool
}.

Definition default_config : KnusprConfig :=
  {| username := ""; password := ""; base_url := "https://www.knuspr.de";
     language := "de-DE,de;q=0.9,en;q=0.8"; min_request_interval := 1 # 10;
     request_timeout := 10 # 1; debug := false |}.

(** ** The outside world: the monotonic clock, sleeping, and the HTTP transport *)

Record Request := {
  method : string;
  url : string;
  params : list (string * string);
  json : option value
}.

(** An [httpx.Response]: its status and what [response.json()] parses, [None]
    when the body is not JSON. *)
Record Response := {
  status_code : Z;
  body : option value
}.

(** What a call to the transport does: it answers, it raises an
    [httpx.RequestError] (DNS, timeout, refused connection, ...), or it raises
    something else. *)
Inductive outcome : Type :=
| Responded (r : Response)
| RequestError (description : string)
| OtherFailure (e : exn).

Inductive sleeper : Type :=
| Blocking      (* [time.sleep] *)
| Suspending.   (* [await asyncio.sleep] *)

(** A computation that talks to the outside world.  Seconds are exact
    rationals: the rounding of float subtraction is not modelled. *)
Inductive prog (A : Type) : Type :=
| Ret (a : A)
| Monotonic (k : Q -> prog A)                    (* [time.monotonic()] *)
| Sleep (how : sleeper) (secs : Q) (k : prog A)
| Send (req : Request) (k : outcome -> prog A).  (* [client.request(...)] *)
Arguments Ret {A} a.
Arguments Monotonic {A} k.
Arguments Sleep {A} how secs k.
Arguments Send {A} req k.

Fixpoint prog_bind {A B : Type} (p : prog A) (f : A -> prog B) : prog B :=
  match p with
  | Ret a => f a
  | Monotonic k => Monotonic (fun t => prog_bind (k t) f)
  | Sleep how secs k => Sleep how secs (prog_bind k f)
  | Send req k => Send req (fun o => prog_bind (k o) f)
  end.

(** A method of an object with state [S]: it runs in the world, returns or
    raises, and leaves the object in a new state either way. *)
Definition cmd (S A : Type) : Type := S -> prog (result A * S).

Definition ret {S A : Type} (a : A) : cmd S A := fun s => Ret (Ok a, s).

Definition raise {S A : Type} (e : exn) : cmd S A := fun s => Ret (Raise e, s).

Definition lift {S A : Type} (r : result A) : cmd S A := fun s => Ret (r, s).

Definition bind {S A B : Type} (m : cmd S A) (k : A -> cmd S B) : cmd S B :=
  fun s =>
    prog_bind (m s) (fun rs =>
      match fst rs with
      | Ok a => k a (snd rs)
      | Raise e => Ret (Raise e, snd rs)
      end).

Definition get {S : Type} : cmd S S := fun s => Ret (Ok s, s).

Definition put {S : Type} (s : S) : cmd S unit := fun _ => Ret (Ok tt, s).

(** [try: m finally: cleanup], for a cleanup that does not raise. *)
Definition try_finally {S A : Type} (m : cmd S A) (cleanup : S -> S) : cmd S A :=
  fun s => prog_bind (m s) (fun rs => Ret (fst rs, cleanup (snd rs))).

(** A method of a component, called on the object that owns it. *)
Definition zoom {S T A : Type} (proj : S -> T) (upd : T -> S -> S) (m : cmd T A)
  : cmd S A :=
  fun s => prog_bind (m (proj s)) (fun rt => Ret (fst rt, upd (snd rt) s)).

Declare Scope cmd_scope.
Delimit Scope cmd_scope with cmd.
Notation "x <- m ;; k" := (bind m (fun x => k))
  (at level 61, m at next level, right associativity) : cmd_scope.

(** A stretch of a method that does not talk to the outside world: it only
    reads and writes the object and may raise. *)
Definition st (S A : Type) : Type := S -> result A * S.

Definition st_ret {S A : Type} (a : A) : st S A := fun s => (Ok a, s).

Definition st_raise {S A : Type} (e : exn) : st S A := fun s => (Raise e, s).

Definition st_lift {S A : Type} (r : result A) : st S A := fun s => (r, s).

Definition st_bind {S A B : Type} (m : st S A) (k : A -> st S B) : st S B :=
  fun s =>
    match m s with
    | (Ok a, s') => k a s'
    | (Raise e, s') => (Raise e, s')
    end.

(** [self.field = v] *)
Definition assign {S : Type} (f : S -> S) : st S unit := fun s => (Ok tt, f s).

Definition pure {S A : Type} (m : st S A) : cmd S A := fun s => Ret (m s).

Declare Scope st_scope.
Delimit Scope st_scope with st.
Notation "x <- m ;; k" := (st_bind m (fun x => k))
  (at level 61, m at next level, right associativity) : st_scope.

(** The world in which a computation runs: the reading of the monotonic
    clock, the requests put on the wire and the sleeps performed (both most
    recent first). *)
Record World := {
  clock : Q;
  wire : list Request;
  slept : list (sleeper * Q)
}.

(** How the world behaves: what the server answers to a request given the
    earlier ones, how much time passes before a clock reading, and by how much
    a sleep overshoots. *)
Record Env := {
  transport : list Request -> Request -> outcome;
  drift : World -> Q;
  oversleep : World -> Q -> Q
}.

Fixpoint run {A : Type} (env : Env) (p : prog A) (w : World) : A * World :=
  match p with
  | Ret a => (a, w)
  | Monotonic k =>
      let t := (clock w + drift env w)%Q in
      run env (k t) {| clock := t; wire := wire w; slept := slept w |}
  | Sleep how secs k =>
      run env k {| clock := (clock w + secs + oversleep env w secs)%Q;
                   wire := wire w;
                   slept := (how, secs) :: slept w |}
  | Send req k =>
      run env (k (transport env (wire w) req))
          {| clock := clock w; wire := req :: wire w; slept := slept w |}
  end.

(** Time does not run backwards and a sleep lasts at least as long as asked. *)
Definition env_ok (env : Env) : Prop :=
  (forall w, 0 <= drift env w)%Q /\ (forall w secs, 0 <= oversleep env w secs)%Q.

(** ** rate_limiter.py *)

Record RateLimiter := {
  _min_interval : Q;
  _last_request : Q
}.

(** [__init__(self, min_interval=0.1)] *)
Definition RateLimiter_init (min_interval : Q) : RateLimiter :=
  {| _min_interval := min_interval; _last_request := 0 |}.

Definition set_last_request (t : Q) (self : RateLimiter) : RateLimiter :=
  {| _min_interval := _min_interval self; _last_request := t |}.

Definition Qlt_bool (x y : Q) : bool := negb (Qle_bool y x).

(** [wait_sync] and [wait_async].  Seconds are exact rationals here, where the
    source computes [now - self._last_request] and
    [self._min_interval - elapsed] in binary64.  The properties stated of the
    pacer are those that do not depend on how the two subtractions round:
    which state is stored, how often a wait sleeps, and the sign and upper
    bound of what it sleeps.  That a wait completes a full interval after the
    previous one is not among them: it holds in exact arithmetic only. *)
Definition wait_sync : cmd RateLimiter unit :=
  fun self =>
    Monotonic (fun now =>
      let elapsed := (now - _last_request self)%Q in
      let finish := Monotonic (fun t => Ret (Ok tt, set_last_request t self)) in
      if Qlt_bool elapsed (_min_interval self)
      then Sleep Blocking (_min_interval self - elapsed)%Q finish
      else finish).

Definition wait_async : cmd RateLimiter unit :=
  fun self =>
    Monotonic (fun now =>
      let elapsed := (now - _last_request self)%Q in
      let finish := Monotonic (fun t => Ret (Ok tt, set_last_request t self)) in
      if Qlt_bool elapsed (_min_interval self)
      then Sleep Suspending (_min_interval self - elapsed)%Q finish
      else finish).

(** [try: response = client.request(...)] with
    [except httpx.RequestError as e: raise NetworkError(f"...{e}")]. *)
Definition request_or_NetworkError {S : Type} (req : Request)
    (describe : string -> string) : cmd S Response :=
  fun s =>
    Send req (fun o =>
      match o with
      | Responded r => Ret (Ok r, s)
      | RequestError e => Ret (Raise (NetworkError (describe e)), s)
      | OtherFailure e => Ret (Raise e, s)
      end).

(** [response.json()] *)
Definition response_json (response : Response) : result value :=
  of_option (body response) JSONDecodeError.

(** [httpx.Response.is_success] *)
Definition is_success (response : Response) : bool :=
  (200 <=? status_code response) && (status_code response <=? 299).

(** [httpx.Response.raise_for_status] *)
Definition raise_for_status (response : Response) : result unit :=
  if is_success response then Ok tt
  else Raise (HTTPStatusError (status_code response)).

Section Package.
Context {ext : Externals}.

(** ** auth.py *)

Record AuthHandler := {
  auth_config : KnusprConfig;
  user_id : value;
  address_id : value;
  _authenticated : bool
}.

Definition AuthHandler_init (config : KnusprConfig) : AuthHandler :=
  {| auth_config := config; user_id := VNone; address_id := VNone;
     _authenticated := false |}.

Definition set_user_id (v : value) (self : AuthHandler) : AuthHandler :=
  {| auth_config := auth_config self; user_id := v;
     address_id := address_id self; _authenticated := _authenticated self |}.

Definition set_address_id (v : value) (self : AuthHandler) : AuthHandler :=
  {| auth_config := auth_config self; user_id := user_id self;
     address_id := v; _authenticated := _authenticated self |}.

Definition set_authenticated (b : bool) (self : AuthHandler) : AuthHandler :=
  {| auth_config := auth_config self; user_id := user_id self;
     address_id := address_id self; _authenticated := b |}.

Definition login_request (config : KnusprConfig) : Request :=
  {| method := "POST";
     url := base_url config ++ LOGIN;
     params := [];
     json := Some (VDict [("email", VStr (username config));
                          ("password", VStr (password config));
                          ("name", VStr "")]) |}.

Definition logout_request (config : KnusprConfig) : Request :=
  {| method := "POST"; url := base_url config ++ LOGOUT; params := [];
     json := None |}.

(** The body of [login] from the status check on, once the POST has
    answered. *)
Definition login_finish (response : Response) : st AuthHandler value :=
  (if py_in (VInt (status_code response)) [401; 403]
   then st_raise (AuthenticationError "Invalid credentials")
   else
     data <- st_lift (response_json response) ;;
     inner_status <- st_lift (py_get data "status" VNone) ;;
     if truthy inner_status && py_in inner_status [401; 403]
     then st_raise (AuthenticationError "Invalid credentials")
     else
       if truthy inner_status && negb (py_in inner_status [200; 202])
       then
         messages <- st_lift (py_get data "messages" (VList [])) ;;
         msg <- st_lift (if truthy messages
                         then (first <- py_getitem0 messages ;;
                               py_get first "content" (VStr "Login failed"))%result
                         else Ok (VStr "Login failed")) ;;
         st_raise (APIError msg inner_status)
       else
         user_data <- st_lift (py_get data "data" (VDict [])) ;;
         user <- st_lift (py_get user_data "user" (VDict [])) ;;
         uid <- st_lift (py_get user "id" VNone) ;;
         _ <- assign (set_user_id uid) ;;
         address <- st_lift (py_get user_data "address" (VDict [])) ;;
         aid <- st_lift (py_get address "id" VNone) ;;
         _ <- assign (set_address_id aid) ;;
         _ <- assign (set_authenticated true) ;;
         st_ret data)%st.

Definition login : cmd AuthHandler value :=
  (self <- get ;;
   response <- request_or_NetworkError (login_request (auth_config self))
                 (fun e => "Login request failed: " ++ e) ;;
   pure (login_finish response))%cmd.

(** The [finally] block of [logout]. *)
Definition logout_reset (self : AuthHandler) : AuthHandler :=
  set_authenticated false (set_address_id VNone (set_user_id VNone self)).

Definition logout : cmd AuthHandler unit :=
  fun self =>
    try_finally
      (fun s =>
         Send (logout_request (auth_config s)) (fun o =>
           match o with
           | Responded _ => Ret (Ok tt, s)
           | RequestError _ => Ret (Ok tt, s)       (* [except httpx.RequestError: pass] *)
           | OtherFailure e => Ret (Raise e, s)
           end))
      logout_reset self.

Definition is_authenticated (self : AuthHandler) : bool := _authenticated self.

(** ** client.py *)

Record KnusprClient := {
  _config : KnusprConfig;
  _rate_limiter : RateLimiter;
  _auth : AuthHandler;
  _http : bool   (* whether [self._http] holds an open [httpx.Client] *)
}.

(** [KnusprClient(config=config)] *)
Definition KnusprClient_init (config : KnusprConfig) : KnusprClient :=
  {| _config := config;
     _rate_limiter := RateLimiter_init (min_request_interval config);
     _auth := AuthHandler_init config;
     _http := false |}.

Definition set_rate_limiter (r : RateLimiter) (self : KnusprClient) : KnusprClient :=
  {| _config := _config self; _rate_limiter := r; _auth := _auth self;
     _http := _http self |}.

Definition set_auth (a : AuthHandler) (self : KnusprClient) : KnusprClient :=
  {| _config := _config self; _rate_limiter := _rate_limiter self; _auth := a;
     _http := _http self |}.

Definition set_http (b : bool) (self : KnusprClient) : KnusprClient :=
  {| _config := _config self; _rate_limiter := _rate_limiter self;
     _auth := _auth self; _http := b |}.

Definition client_enter : cmd KnusprClient unit :=
  (self <- get ;;
   _ <- put (set_http true self) ;;
   _ <- zoom _auth set_auth login ;;
   ret tt)%cmd.

Definition client_exit : cmd KnusprClient unit :=
  fun self =>
    if _http self
    then try_finally (zoom _auth set_auth logout) (set_http false) self
    else Ret (Ok tt, self).

Definition _ensure_client : cmd KnusprClient unit :=
  fun self =>
    if _http self then Ret (Ok tt, self)
    else Ret (Raise (KnusprError
           "Client not initialized. Use 'with KnusprClient() as client:'"), self).

Definition _handle_response (response : Response) : result value :=
  if status_code response =? 429
  then Raise (RateLimitError "Rate limit exceeded. Increase min_request_interval.")
  else if py_in (VInt (status_code response)) [401; 403]
  then Raise (AuthenticationError "Session expired or invalid")
  else
    (_ <- raise_for_status response ;;
     body <- response_json response ;;
     inner_status <- py_get body "status" VNone ;;
     if truthy inner_status && isinstance_int inner_status
        && py_int_ge inner_status 400
     then
       messages <- py_get body "messages" (VList []) ;;
       msg <- (if truthy messages
               then (first <- py_getitem0 messages ;;
                     py_get first "content" (VStr "API error"))
               else Ok (VStr "API error")) ;;
       Raise (APIError msg inner_status)
     else py_get body "data" body)%result.

Definition _request (method : string) (path : string)
    (params : list (string * string)) (json : option value)
  : cmd KnusprClient value :=
  (_ <- zoom _rate_limiter set_rate_limiter wait_sync ;;
   _ <- _ensure_client ;;
   self <- get ;;
   response <- request_or_NetworkError
                 {| method := method; url := base_url (_config self) ++ path;
                    params := params; json := json |}
                 (fun e => "Request to " ++ path ++ " failed: " ++ e) ;;
   lift (_handle_response response))%cmd.

Definition _get (path : string) (params : list (string * string))
  : cmd KnusprClient value :=
  _request "GET" path params None.

Definition dquote : string :=
  String (Ascii.Ascii false true false false false true false false) "".

(** [isinstance(badge, list) and any(b.get("slug") == "promoted"
                                     for b in badge if isinstance(b, dict))] *)
Definition is_promoted (badge : value) : bool :=
  match badge with
  | VList bs =>
      existsb (fun b =>
                 match b with
                 | VDict d => py_eq_str (dict_get d "slug" VNone) "promoted"
                 | _ => false
                 end) bs
  | _ => false
  end.

(** The [for p in raw_products] loop of [search_products]; [results] is the
    list built so far. *)
Fixpoint search_loop (results : list SearchResult) (raw_products : list value)
  : result (list SearchResult) :=
  match raw_products with
  | [] => Ok results
  | p :: rest =>
      (badge <- py_get p "badge" VNone ;;
       if is_promoted badge then search_loop results rest
       else
         r <- of_option (SearchResult_model_validate p) ValidationError ;;
         search_loop (results ++ [r]) rest)%result
  end.

(** The [params] of [search_products]. *)
Definition search_params (query : string) (limit : Z) : list (string * string) :=
  [("search", query); ("offset", "0"); ("limit", py_str (VInt limit));
   ("companyId", "1");
   ("filterData", "{" ++ dquote ++ "filters" ++ dquote ++ ":[]}");
   ("canCorrect", "true")].

Definition search_products (query : string) (limit : Z)
  : cmd KnusprClient (list SearchResult) :=
  (data <- _get SEARCH (search_params query limit) ;;
   raw_products <- lift (py_get data "productList" (VList [])) ;;
   ps <- lift (py_iter raw_products) ;;
   lift (search_loop [] ps))%cmd.

(** The [for product_id, item_data in items_raw.items()] loop of [get_cart]. *)
Fixpoint cart_loop (cart_items : list CartItem) (entries : list (string * value))
  : result (list CartItem) :=
  match entries with
  | [] => Ok cart_items
  | (product_id, item_data) :: rest =>
      (n <- of_option (py_int product_id) ValueError ;;
       item_data' <- py_setitem item_data "productId" (VInt n) ;;
       item <- of_option (CartItem_model_validate item_data') ValidationError ;;
       cart_loop (cart_items ++ [item]) rest)%result
  end.

(** [Cart(total_price=..., total_items=..., can_make_order=..., items=...)] *)
Definition Cart_new (tp : value) (n : Z) (cmo : value) (its : list CartItem)
  : result Cart :=
  match validate_float tp, validate_bool cmo with
  | Some p, Some b =>
      Ok {| total_price := p; total_items := n; can_make_order := b; items := its |}
  | _, _ => Raise ValidationError
  end.

(** What [get_cart] does with the unwrapped response. *)
Definition parse_cart (data : value) : result Cart :=
  (items_raw <- py_get data "items" (VDict []) ;;
   cart_items <- match items_raw with
                 | VDict d => cart_loop [] d
                 | VList l =>
                     mapM (fun item =>
                             of_option (CartItem_model_validate item) ValidationError) l
                 | _ => Ok []
                 end ;;
   tp <- py_get data "totalPrice" (VFloat 0%float) ;;
   cmo <- py_get data "canMakeOrder" (VBool false) ;;
   Cart_new tp (Z.of_nat (List.length cart_items)) cmo cart_items)%result.

Definition get_cart : cmd KnusprClient Cart :=
  (data <- _get CART [] ;;
   lift (parse_cart data))%cmd.

(** What [get_delivery_slots] does with the unwrapped response. *)
Definition parse_slots (data : value) : result (list DeliverySlot) :=
  (slots_raw <- (if isinstance_list data then Ok data
                 else py_get data "slots" (VList [])) ;;
   l <- py_iter slots_raw ;;
   mapM (fun s => of_option (DeliverySlot_model_validate s) ValidationError) l)%result.

Definition get_delivery_slots : cmd KnusprClient (list DeliverySlot) :=
  (self <- get ;;
   if negb (truthy (user_id (_auth self))) || negb (truthy (address_id (_auth self)))
   then raise (KnusprError "user_id and address_id required. Are you logged in?")
   else
     data <- _get TIMESLOTS
               [("userId", py_str (user_id (_auth self)));
                ("addressId", py_str (address_id (_auth self)));
                ("reasonableDeliveryTime", "true")] ;;
     lift (parse_slots data))%cmd.

End Package.

(** ** A caller that uses one pacer repeatedly *)

(** The clock reading that a wait takes on entry. *)
Definition reading (env : Env) (w : World) : Q := (clock w + drift env w)%Q.

(** The two entry points of the pacer. *)
Inductive entry : Type := Sync | Async.

Definition wait (how : entry) : cmd RateLimiter unit :=
  match how with Sync => wait_sync | Async => wait_async end.

(** The caller does something else for [secs] seconds. *)
Definition idle (secs : Q) (w : World) : World :=
  {| clock := (clock w + secs)%Q; wire := wire w; slept := slept w |}.

(** A sequence of waits on one pacer, each after some idle time; the result
    lists the clock reading at which each wait completed, in call order. *)
Fixpoint session (env : Env) (calls : list (Q * entry)) (self : RateLimiter)
    (w : World) : list Q * RateLimiter * World :=
  match calls with
  | [] => ([], self, w)
  | (secs, how) :: calls' =>
      let '((_, self'), w') := run env (wait how self) (idle secs w) in
      let '(ts, self'', w'') := session env calls' self' w' in
      (clock w' :: ts, self'', w'')
  end.

(** ** Sample instances, after the fixtures of tests/ *)

Definition test_config : KnusprConfig :=
  {| username := "test@example.com"; password := "testpass";
     base_url := "https://www.knuspr.de"; language := "de-DE,de;q=0.9,en;q=0.8";
     min_request_interval := 0; request_timeout := 10 # 1; debug := false |}.

(** A stand-in for [int(s)] that reads plain decimal digits. *)
Fixpoint digits_value (acc : Z) (s : string) : option Z :=
  match s with
  | EmptyString => Some acc
  | String c s' =>
      let n := Z.of_nat (Ascii.nat_of_ascii c) in
      if (48 <=? n) && (n <=? 57) then digits_value (10 * acc + (n - 48)) s'
      else None
  end.

Definition sample_int (s : string) : option Z :=
  match s with
  | EmptyString => None
  | _ => digits_value 0 s
  end.

(** A stand-in for [CartItem.model_validate] that reads the two required
    fields. *)
Definition sample_CartItem (v : value) : option CartItem :=
  match v with
  | VDict d =>
      match dict_lookup "orderFieldId" d, dict_lookup "productId" d with
      | Some (VStr f), Some (VInt n) =>
          Some {| ci_order_field_id := f; ci_product_id := n; ci_product_name := "";
                  ci_quantity := 0; ci_price := 0%float;
                  ci_primary_category_name := ""; ci_brand := ""; ci_extra := [] |}
      | _, _ => None
      end
  | _ => None
  end.

(** A stand-in for a field declared [str | None = None]: a missing or null
    field gives [None], a string gives itself, and any other value is
    refused. *)
Definition sample_optional_str (field : option value) : option (option string) :=
  match field with
  | None | Some VNone => Some None
  | Some (VStr s) => Some (Some s)
  | Some _ => None
  end.

(** A stand-in for [SearchResult.model_validate] that reads the two required
    fields and [badge], which models.py declares as [str | None]. *)
Definition sample_SearchResult (v : value) : option SearchResult :=
  match v with
  | VDict d =>
      match dict_lookup "productId" d, dict_lookup "productName" d,
            sample_optional_str (dict_lookup "badge" d) with
      | Some (VInt n), Some (VStr name), Some badge =>
          Some {| sr_id := n; sr_name := name; sr_price := dict_get d "price" VNone;
                  sr_brand := ""; sr_amount := ""; sr_badge := badge;
                  sr_favourite := false; sr_in_stock := true;
                  sr_image_path := None; sr_extra := [] |}
      | _, _, _ => None
      end
  | _ => None
  end.

Definition sample_DeliverySlot (v : value) : option DeliverySlot :=
  match v with
  | VDict d =>
      Some {| ds_id := None; ds_start := None; ds_end := None;
              ds_is_available := true; ds_price := None; ds_extra := d |}
  | _ => None
  end.

Definition sample_float (v : value) : option float :=
  match v with
  | VFloat f => Some f
  | VInt n => Some (float_of_Z n)
  | _ => None
  end.

Definition sample_bool (v : value) : option bool :=
  match v with VBool b => Some b | _ => None end.

Definition sample_str (v : value) : string :=
  match v with
  | VStr s => s
  | VInt n => DecimalString.NilZero.string_of_int (Z.to_int n)
  | _ => "None"
  end.

Definition test_externals : Externals :=
  {| LOGIN := "/services/frontend-service/login";
     LOGOUT := "/services/frontend-service/logout";
     SEARCH := "/services/frontend-service/search-metadata";
     CART := "/services/frontend-service/v2/cart";
     TIMESLOTS := "/services/frontend-service/timeslots";
     py_int := sample_int;
     py_str := sample_str;
     SearchResult_model_validate := sample_SearchResult;
     CartItem_model_validate := sample_CartItem;
     DeliverySlot_model_validate := sample_DeliverySlot;
     validate_float := sample_float;
     validate_bool := sample_bool |}.

(** A server that answers every request with the same response, on a clock
    that only moves while the program sleeps. *)
Definition constant_server (r : Response) : Env :=
  {| transport := fun _ _ => Responded r;
     drift := fun _ => 0%Q;
     oversleep := fun _ _ => 0%Q |}.

(** A transport on which every request fails to connect. *)
Definition unreachable_server : Env :=
  {| transport := fun _ _ => RequestError "Connection refused";
     drift := fun _ => 0%Q;
     oversleep := fun _ _ => 0%Q |}.

Definition world_at (t : Q) : World := {| clock := t; wire := []; slept := [] |}.

Definition json_response (status : Z) (v : value) : Response :=
  {| status_code := status; body := Some v |}.

(** [tests/fixtures/login_response.json], as the tests use it. *)
Definition login_response : value :=
  VDict [("status", VInt 200);
         ("data", VDict [("user", VDict [("id", VInt 12345)]);
                         ("address", VDict [("id", VInt 67890)])]);
         ("messages", VList [])].


(** Delivery slots as a list inside the envelope. *)
Definition slots_envelope : list (string * value) :=
  [("status", VInt 200); ("data", VList [VDict [("id", VStr "slot-1")]])].

(** A cart whose [items] is a mapping keyed by product id, with a count
    reported by the server that differs from the number of entries. *)
Definition cart_data : list (string * value) :=
  [("totalPrice", VFloat 4.27%float);
   ("totalItems", VInt 99);
   ("canMakeOrder", VBool true);
   ("items", VDict [("1001", VDict [("orderFieldId", VStr "of-abc-123")]);
                    ("1002", VDict [("orderFieldId", VStr "of-def-456")])])].

Definition cart_response : value :=
  VDict [("status", VInt 200); ("data", VDict cart_data)].

Definition product (id : Z) (name : string) (badge : list value) : value :=
  VDict [("productId", VInt id); ("productName", VStr name);
         ("badge", VList badge)].

(** Three products, the second one a promotional placement. *)
Definition search_data : list (string * value) :=
  [("productList",
    VList [product 1001 "Bio Vollmilch 3,5%" [];
           product 9999 "Sponsored" [VDict [("slug", VStr "promoted")]];
           product 1002 "Milch 1,5%" [VDict [("slug", VStr "bio")]]]);
   ("totalCount", VInt 3)].

Definition search_response : value :=
  VDict [("status", VInt 200); ("data", VDict search_data)].

(** The same three products in a response whose entries, the promotional
    placement apart, carry no badge list: the first has no [badge], the third
    a null one. *)
Definition plain_search_data : list (string * value) :=
  [("productList",
    VList [VDict [("productId", VInt 1001); ("productName", VStr "Bio Vollmilch 3,5%")];
           product 9999 "Sponsored" [VDict [("slug", VStr "promoted")]];
           VDict [("productId", VInt 1002); ("productName", VStr "Milch 1,5%");
                  ("badge", VNone)]]);
   ("totalCount", VInt 3)].

Definition plain_search_response : value :=
  VDict [("status", VInt 200); ("data", VDict plain_search_data)].

Section SampleClients.
Context {ext : Externals}.

(** A client inside its [with] block, logged in as in the tests. *)
Definition logged_in_client : KnusprClient :=
  {| _config := test_config;
     _rate_limiter := RateLimiter_init (min_request_interval test_config);
     _auth := {| auth_config := test_config; user_id := VInt 12345;
                 address_id := VInt 67890; _authenticated := true |};
     _http := true |}.

(** A client whose login left [address_id] unresolved. *)
Definition half_resolved_client : KnusprClient :=
  {| _config := test_config;
     _rate_limiter := RateLimiter_init (min_request_interval test_config);
     _auth := {| auth_config := test_config; user_id := VInt 12345;
                 address_id := VNone; _authenticated := true |};
     _http := true |}.

End SampleClients.

(** ** The rest of models.py and client.py *)

Record Order := {
  o_id : option (string + Z);
  o_order_number : option string;
  o_status : option string;
  o_created_at : option string;
  o_delivered_at : option string;
  o_delivery_date : option string;
  o_total_price : option float;
  o_price : option float;
  o_products : list OrderProduct;
  o_items : list OrderProduct;
  o_extra : list (string * value)
}.

(** [return self.products if self.products else self.items] *)
Definition all_products (self : Order) : list OrderProduct :=
  match o_products self with
  | [] => o_items self
  | _ :: _ => o_products self
  end.

Record PremiumProfile := {
  is_premium : bool;
  valid_until : option string;
  pp_extra : list (string * value)
}.

Record AccountData := {
  ad_user_id : option Z;
  ad_address_id : option Z;
  ad_premium : option PremiumProfile;
  ad_cart : option Cart
}.

(** What the remaining operations import: more path constants of
    [knuspr.endpoints] ([ORDER_DETAIL] with its [format] applied), pydantic's
    validation of the remaining records and of an [int | None] field, the
    builtin [float], and the construction of a [KnusprConfig] from keyword
    arguments and the environment.  [py_float] answers with the exception that
    [float(x)] raises. *)
Class MoreExternals := {
  DELIVERED_ORDERS : string;
  UPCOMING_ORDERS : string;
  PREMIUM_PROFILE : string;
  ORDER_DETAIL_format : string -> string;
  Order_model_validate : value -> option Order;
  PremiumProfile_model_validate : value -> option PremiumProfile;
  validate_optional_int : value -> option (option Z);
  py_float : value -> result float;
  KnusprConfig_new : list (string * string) -> KnusprConfig
}.

Section MorePackage.
Context {ext : Externals} {more : MoreExternals}.

(** [SearchResult.price_value] *)
Definition price_value (self : SearchResult) : result float :=
  match sr_price self with
  | VDict d => py_float (dict_get d "full" (VInt 0))
  | price => py_float (if truthy price then price else VInt 0)
  end.

(** [if s:] on a [str | None] argument. *)
Definition given (s : option string) : bool :=
  match s with
  | Some t => negb (String.eqb t "")
  | None => false
  end.

(** [KnusprClient.__init__(username, password, config)]; a [KnusprConfig]
    instance is always truthy. *)
Definition KnusprClient_new (username password : option string)
    (config : option KnusprConfig) : KnusprClient :=
  match config with
  | Some c => KnusprClient_init c
  | None =>
      let kwargs :=
        ((if given username
          then [("username", match username with Some u => u | None => "" end)]
          else [])
         ++ (if given password
             then [("password", match password with Some p => p | None => "" end)]
             else []))%list in
      KnusprClient_init (KnusprConfig_new kwargs)
  end.

Definition _post (path : string) (json : value) : cmd KnusprClient value :=
  _request "POST" path [] (Some json).

Definition _delete (path : string) (params : list (string * string))
  : cmd KnusprClient value :=
  _request "DELETE" path params None.

(** The [payload] of [add_to_cart]. *)
Definition add_to_cart_payload (product_id quantity : Z) : value :=
  VDict [("actionId", VNone); ("productId", VInt product_id);
         ("quantity", VInt quantity); ("recipeId", VNone);
         ("source", VStr "true:Search Results")].

Definition add_to_cart (product_id quantity : Z) : cmd KnusprClient Z :=
  (_ <- _post CART (add_to_cart_payload product_id quantity) ;;
   ret product_id)%cmd.

Definition remove_from_cart (order_field_id : string) : cmd KnusprClient bool :=
  (_ <- _delete CART [("orderFieldId", order_field_id)] ;;
   ret true)%cmd.

(** What [get_order_history] and [get_upcoming_orders] do with the unwrapped
    response. *)
Definition parse_orders (data : value) : result (list Order) :=
  (orders_raw <- (if isinstance_list data then Ok data
                  else py_get data "orders" (VList [])) ;;
   l <- py_iter orders_raw ;;
   mapM (fun o => of_option (Order_model_validate o) ValidationError) l)%result.

Definition get_order_history (limit offset : Z) : cmd KnusprClient (list Order) :=
  (data <- _get DELIVERED_ORDERS
             [("offset", py_str (VInt offset)); ("limit", py_str (VInt limit))] ;;
   lift (parse_orders data))%cmd.

Definition get_order_detail (order_id : string) : cmd KnusprClient Order :=
  (data <- _get (ORDER_DETAIL_format order_id) [] ;;
   lift (of_option (Order_model_validate data) ValidationError))%cmd.

Definition get_upcoming_orders : cmd KnusprClient (list Order) :=
  (data <- _get UPCOMING_ORDERS [] ;;
   lift (parse_orders data))%cmd.

Definition get_premium_info : cmd KnusprClient PremiumProfile :=
  (data <- _get PREMIUM_PROFILE [] ;;
   lift (of_option (PremiumProfile_model_validate data) ValidationError))%cmd.

(** [AccountData(user_id=..., address_id=..., premium=..., cart=...)] *)
Definition AccountData_new (uid aid : value) (premium : PremiumProfile) (cart : Cart)
  : result AccountData :=
  match validate_optional_int uid, validate_optional_int aid with
  | Some u, Some a =>
      Ok {| ad_user_id := u; ad_address_id := a; ad_premium := Some premium;
            ad_cart := Some cart |}
  | _, _ => Raise ValidationError
  end.

Definition get_account_data : cmd KnusprClient AccountData :=
  (premium <- get_premium_info ;;
   cart <- get_cart ;;
   self <- get ;;
   lift (AccountData_new (user_id (_auth self)) (address_id (_auth self))
                         premium cart))%cmd.

End MorePackage.

(** Stand-ins for the remaining imports, for the examples. *)
Definition sample_Order (v : value) : option Order :=
  match v with
  | VDict d =>
      Some {| o_id := match dict_lookup "id" d with
                      | Some (VStr s) => Some (inl s)
                      | Some (VInt n) => Some (inr n)
                      | _ => None
                      end;
              o_order_number := None; o_status := None; o_created_at := None;
              o_delivered_at := None; o_delivery_date := None;
              o_total_price := None; o_price := None;
              o_products := []; o_items := []; o_extra := d |}
  | _ => None
  end.

Definition sample_PremiumProfile (v : value) : option PremiumProfile :=
  match v with
  | VDict d =>
      Some {| is_premium := match dict_lookup "is_premium" d with
                            | Some (VBool b) => b
                            | _ => false
                            end;
              valid_until := None; pp_extra := d |}
  | _ => None
  end.

Definition sample_optional_int (v : value) : option (option Z) :=
  match v with
  | VNone => Some None
  | VInt n => Some (Some n)
  | _ => None
  end.

Definition sample_py_float (v : value) : result float :=
  match v with
  | VFloat f => Ok f
  | VInt n => Ok (float_of_Z n)
  | VBool b => Ok (float_of_Z (Z.b2z b))
  | VStr _ => Raise ValueError
  | _ => Raise TypeError
  end.

Definition sample_config_new (kwargs : list (string * string)) : KnusprConfig :=
  {| username := match find (fun kv => String.eqb (fst kv) "username") kwargs with
                 | Some kv => snd kv
                 | None => ""
                 end;
     password := match find (fun kv => String.eqb (fst kv) "password") kwargs with
                 | Some kv => snd kv
                 | None => ""
                 end;
     base_url := "https://www.knuspr.de"; language := "de-DE,de;q=0.9,en;q=0.8";
     min_request_interval := 1 # 10; request_timeout := 10 # 1; debug := false |}.

Definition test_more : MoreExternals :=
  {| DELIVERED_ORDERS := "/api/v3/orders/delivered";
     UPCOMING_ORDERS := "/api/v3/orders/upcoming";
     PREMIUM_PROFILE := "/services/frontend-service/premium/profile";
     ORDER_DETAIL_format := fun order_id => "/api/v3/orders/" ++ order_id;
     Order_model_validate := sample_Order;
     PremiumProfile_model_validate := sample_PremiumProfile;
     validate_optional_int := sample_optional_int;
     py_float := sample_py_float;
     KnusprConfig_new := sample_config_new |}.

(** A server that answers by path: [routes] maps the end of a request's URL
    to a response; anything else is a connection failure. *)
Fixpoint ends_with (suffix s : string) : bool :=
  if String.eqb s suffix then true
  else match s with
       | EmptyString => false
       | String _ s' => ends_with suffix s'
       end.

Definition routed_server (routes : list (string * Response)) : Env :=
  {| transport := fun _ req =>
       match find (fun r => ends_with (fst r) (url req)) routes with
       | Some r => Responded (snd r)
       | None => RequestError "Connection refused"
       end;
     drift := fun _ => 0%Q;
     oversleep := fun _ _ => 0%Q |}.

(** ** Vocabulary of the statements *)

(** The envelope does not report an error: its [status] is not an integer
    of 400 or more. *)
Definition no_inner_error (d : list (string * value)) : Prop :=
  forall n, dict_lookup "status" d = Some (VInt n) -> n < 400.

(** The errors that [login] raises on purpose. *)
Definition is_login_error (e : exn) : bool :=
  match e with
  | NetworkError _ | AuthenticationError _ | APIError _ _ => true
  | _ => false
  end.

(** The world after [req] went out. *)
Definition sent (req : Request) (w : World) : World :=
  {| clock := clock w; wire := req :: wire w; slept := slept w |}.

(** The inner status lets [login] through: it is falsy, or it is 200 or 202. *)
Definition status_passes (st : value) : Prop :=
  truthy st = false \/ (py_in st [401; 403] = false /\ py_in st [200; 202] = true).

(** An entry of the product list that carries a badge list with an entry of
    slug ["promoted"]. *)
Definition has_promoted_badge (p : value) : Prop :=
  exists d bs b,
    p = VDict d /\ dict_lookup "badge" d = Some (VList bs) /\
    In (VDict b) bs /\ dict_lookup "slug" b = Some (VStr "promoted").

(** The test that the search loop applies to an entry. *)
Definition promoted_entry (p : value) : bool :=
  match p with
  | VDict d => is_promoted (dict_get d "badge" VNone)
  | _ => false
  end.

Section Vocabulary.
Context {ext : Externals}.

(** One entry of a mapping-shaped [items]: the key becomes the entry's
    [productId], as an integer, and the entry is then validated. *)
Definition inject_and_validate (entry : string * value) : result CartItem :=
  (n <- of_option (py_int (fst entry)) ValueError ;;
   item_data <- py_setitem (snd entry) "productId" (VInt n) ;;
   of_option (CartItem_model_validate item_data) ValidationError)%result.

Definition validate_CartItem (v : value) : result CartItem :=
  of_option (CartItem_model_validate v) ValidationError.

Definition validate_SearchResult (v : value) : result SearchResult :=
  of_option (SearchResult_model_validate v) ValidationError.

Definition validate_DeliverySlot (v : value) : result DeliverySlot :=
  of_option (DeliverySlot_model_validate v) ValidationError.

(** What the declaration [badge: str | None = None] of [SearchResult]
    (models.py) means for validation: a record whose [badge] is a list, empty
    or not, is refused. *)
Definition badge_declared_str_or_none : Prop :=
  forall (d : list (string * value)) (bs : list value),
    dict_lookup "badge" d = Some (VList bs) ->
    SearchResult_model_validate (VDict d) = None.

End Vocabulary.

(** * Properties *)

(** ** Running computations *)

Lemma run_prog_bind {A B : Type} (env : Env) (p : prog A) (f : A -> prog B) :
  forall w, run env (prog_bind p f) w
            = run env (f (fst (run env p w))) (snd (run env p w)).
Proof.
  induction p as [a | k IH | how secs k IH | req k IH]; intros w; cbn.
  - reflexivity.
  - apply IH.
  - apply IH.
  - apply IH.
Qed.

Lemma run_bind {S A B : Type} (env : Env) (m : cmd S A) (k : A -> cmd S B)
    (s : S) (w : World) :
  run env (bind m k s) w
  = match fst (fst (run env (m s) w)) with
    | Ok a => run env (k a (snd (fst (run env (m s) w)))) (snd (run env (m s) w))
    | Raise e => ((Raise e, snd (fst (run env (m s) w))), snd (run env (m s) w))
    end.
Proof.
  unfold bind. rewrite run_prog_bind.
  destruct (run env (m s) w) as [[r s'] w']; cbn.
  destruct r; reflexivity.
Qed.

Lemma run_zoom {S T A : Type} (env : Env) (proj : S -> T) (upd : T -> S -> S)
    (m : cmd T A) (s : S) (w : World) :
  run env (zoom proj upd m s) w
  = ((fst (fst (run env (m (proj s)) w)),
      upd (snd (fst (run env (m (proj s)) w))) s),
     snd (run env (m (proj s)) w)).
Proof. unfold zoom. rewrite run_prog_bind. reflexivity. Qed.

(** ** The pacer *)

Lemma Qlt_bool_true (x y : Q) : Qlt_bool x y = true <-> (x < y)%Q.
Proof.
  unfold Qlt_bool. rewrite negb_true_iff, <- not_true_iff_false, Qle_bool_iff.
  split; [apply Qnot_le_lt | apply Qlt_not_le].
Qed.

Lemma Qlt_bool_false (x y : Q) : Qlt_bool x y = false <-> (y <= x)%Q.
Proof.
  unfold Qlt_bool. rewrite negb_false_iff. apply Qle_bool_iff.
Qed.

(** One wait, in closed form: what is slept, and the state left behind. *)
Lemma wait_run (env : Env) (how : entry) (self : RateLimiter) (w : World) :
  let now := reading env w in
  let elapsed := (now - _last_request self)%Q in
  let res := run env (wait how self) w in
  fst (fst res) = Ok tt /\
  _min_interval (snd (fst res)) = _min_interval self /\
  _last_request (snd (fst res)) = clock (snd res) /\
  wire (snd res) = wire w /\
  slept (snd res)
  = ((if Qlt_bool elapsed (_min_interval self)
      then [(match how with Sync => Blocking | Async => Suspending end,
             (_min_interval self - elapsed)%Q)]
      else []) ++ slept w)%list.
Proof.
  unfold reading. destruct how; cbn;
    destruct (Qlt_bool _ _); cbn; repeat split; reflexivity.
Qed.

(** C4, at a failing input: a pacer configured with a one-hour interval,
    first used when the monotonic clock reads 120 seconds, sleeps 3480 seconds
    in its first wait.  [_last_request] starts at [0.0], so the first call is
    treated as coming 120 seconds after an earlier one. *)
Theorem first_wait_sleeps_when_clock_below_interval :
  slept (snd (run (constant_server (json_response 200 VNone))
                  (wait_sync (RateLimiter_init (3600 # 1))) (world_at (120 # 1))))
  = [(Blocking, 3480 # 1)].
Proof. vm_compute. reflexivity. Qed.


(** ** The response envelope *)

Lemma success_not_special (response : Response) :
  is_success response = true ->
  (status_code response =? 429) = false /\
  py_in (VInt (status_code response)) [401; 403] = false.
Proof.
  unfold is_success, py_in, py_eq_int. cbn [existsb].
  intros H. apply andb_true_iff in H. destruct H as [H1 H2].
  apply Z.leb_le in H1. apply Z.leb_le in H2.
  split.
  - apply Z.eqb_neq. lia.
  - rewrite !orb_false_r. apply orb_false_iff. split; apply Z.eqb_neq; lia.
Qed.

(** On a successful status with an object body, [_handle_response] only looks
    at the envelope. *)
Lemma handle_response_object (response : Response) (d : list (string * value)) :
  is_success response = true ->
  body response = Some (VDict d) ->
  _handle_response response
  = (let inner_status := dict_get d "status" VNone in
     if truthy inner_status && isinstance_int inner_status
        && py_int_ge inner_status 400
     then
       (msg <- (if truthy (dict_get d "messages" (VList []))
                then (first <- py_getitem0 (dict_get d "messages" (VList [])) ;;
                      py_get first "content" (VStr "API error"))
                else Ok (VStr "API error")) ;;
        Raise (APIError msg inner_status))%result
     else Ok (dict_get d "data" (VDict d))).
Proof.
  intros Hs Hb. destruct (success_not_special response Hs) as [H1 H2].
  unfold _handle_response, raise_for_status, response_json.
  rewrite H1, H2, Hs, Hb. cbn. reflexivity.
Qed.

Lemma no_inner_error_test (d : list (string * value)) :
  no_inner_error d ->
  truthy (dict_get d "status" VNone) && isinstance_int (dict_get d "status" VNone)
  && py_int_ge (dict_get d "status" VNone) 400 = false.
Proof.
  unfold no_inner_error, dict_get. intros H.
  destruct (dict_lookup "status" d) as [[| b | n | f | s | l | d'] |]; cbn;
    try reflexivity; try (rewrite ?andb_false_r; reflexivity).
  - destruct b; reflexivity.
  - specialize (H n eq_refl). rewrite andb_true_r.
    apply andb_false_iff. right. apply Z.leb_gt. exact H.
Qed.




(** ** OrderProduct.display_name *)

Lemma str_or_truthy (s : string) (y : option string) :
  s <> "" -> str_or (Some s) y = Some s.
Proof.
  intros Hs. unfold str_or.
  destruct (String.eqb_spec s ""); [contradiction | reflexivity].
Qed.

Lemma str_or_falsy (x y : option string) :
  x = None \/ x = Some "" -> str_or x y = y.
Proof. intros [-> | ->]; reflexivity. Qed.

(** C9, as stated, fails: a product whose [product_name] is present but empty
    does not get that [product_name] as its display name; [or] tests
    truthiness, so the empty string falls through to [name]. *)
Lemma display_name_present_empty_counterexample :
  ~ (forall (p : OrderProduct) (s : string),
        op_product_name p = Some s -> display_name p = s).
Proof.
  intros H.
  specialize (H (mkOrderProduct (Some "") (Some "Milk")) "" eq_refl).
  vm_compute in H. discriminate H.
Qed.

(** C9 (amended): [display_name] is [product_name] when that is present and
    non-empty, else [name] when that is present and non-empty, else the literal
    ["Unknown"]. *)
Theorem display_name_first_nonempty (p : OrderProduct) :
  (forall s, op_product_name p = Some s -> s <> "" -> display_name p = s) /\
  (forall s, op_product_name p = None \/ op_product_name p = Some "" ->
             op_name p = Some s -> s <> "" -> display_name p = s) /\
  (op_product_name p = None \/ op_product_name p = Some "" ->
   op_name p = None \/ op_name p = Some "" -> display_name p = "Unknown").
Proof.
  unfold display_name. repeat split.
  - intros s Hp Hs. rewrite Hp, (str_or_truthy s _ Hs), (str_or_truthy s _ Hs).
    reflexivity.
  - intros s Hp Hn Hs. rewrite (str_or_falsy _ _ Hp), Hn, (str_or_truthy s _ Hs).
    reflexivity.
  - intros Hp Hn. rewrite (str_or_falsy _ _ Hp), (str_or_falsy _ _ Hn).
    reflexivity.
Qed.

Lemma display_name_first_nonempty_witness :
  display_name (mkOrderProduct (Some "Vollmilch") (Some "Milk")) = "Vollmilch" /\
  display_name (mkOrderProduct (Some "") (Some "Milk")) = "Milk" /\
  display_name (mkOrderProduct None (Some "")) = "Unknown".
Proof.
  split; [| split].
  - apply (proj1 (display_name_first_nonempty
                    (mkOrderProduct (Some "Vollmilch") (Some "Milk"))));
      [reflexivity | discriminate].
  - apply (proj1 (proj2 (display_name_first_nonempty
                           (mkOrderProduct (Some "") (Some "Milk")))));
      [right; reflexivity | reflexivity | discriminate].
  - apply (proj2 (proj2 (display_name_first_nonempty (mkOrderProduct None (Some "")))));
      [left; reflexivity | right; reflexivity].
Defined.

(** ** The session handler *)

Section SessionProperties.
Context {ext : Externals}.

Lemma run_login (env : Env) (self : AuthHandler) (w : World) :
  run env (login self) w
  = (match transport env (wire w) (login_request (auth_config self)) with
     | Responded response => login_finish response self
     | RequestError desc =>
         (Raise (NetworkError ("Login request failed: " ++ desc)), self)
     | OtherFailure e => (Raise e, self)
     end,
     sent (login_request (auth_config self)) w).
Proof.
  unfold login. rewrite run_bind. cbn [get run fst snd].
  rewrite run_bind. cbn [request_or_NetworkError run fst snd wire clock slept].
  destruct (transport env (wire w) (login_request (auth_config self)));
    reflexivity.
Qed.

Lemma run_logout (env : Env) (self : AuthHandler) (w : World) :
  run env (logout self) w
  = ((match transport env (wire w) (logout_request (auth_config self)) with
      | Responded _ | RequestError _ => Ok tt
      | OtherFailure e => Raise e
      end, logout_reset self),
     sent (logout_request (auth_config self)) w).
Proof.
  unfold logout, try_finally. cbn [prog_bind run wire clock slept].
  destruct (transport env (wire w) (logout_request (auth_config self)));
    reflexivity.
Qed.

Ltac split_cases :=
  repeat (cbn in *;
          match goal with
          | |- context [if ?c then _ else _] => destruct c eqn:?
          | |- context [match ?x with _ => _ end] => destruct x eqn:?
          end).

Ltac attribute_errors :=
  repeat match goal with
         | Hx : match ?v with _ => _ end = Raise _ |- _ =>
             destruct v; try discriminate Hx; injection Hx as <-
         end.

Lemma login_finish_error_keeps_state (response : Response) (self : AuthHandler)
    (e : exn) :
  fst (login_finish response self) = Raise e ->
  is_login_error e = true ->
  snd (login_finish response self) = self.
Proof.
  unfold login_finish, st_bind, st_lift, st_raise, st_ret, assign, response_json,
    of_option, py_get.
  split_cases; intros H He; try reflexivity; try discriminate;
    try (injection H as <-; discriminate He).
  all: cbn in H; injection H as <-; attribute_errors; discriminate He.
Qed.

Lemma login_finish_change_passed (response : Response) (self : AuthHandler) :
  snd (login_finish response self) <> self ->
  exists d,
    py_in (VInt (status_code response)) [401; 403] = false /\
    body response = Some (VDict d) /\
    truthy (dict_get d "status" VNone) && py_in (dict_get d "status" VNone) [401; 403]
    = false /\
    truthy (dict_get d "status" VNone)
    && negb (py_in (dict_get d "status" VNone) [200; 202]) = false.
Proof.
  unfold login_finish, st_bind, st_lift, st_raise, st_ret, assign, response_json,
    of_option, py_get.
  destruct (py_in (VInt (status_code response)) [401; 403]) eqn:Hs;
    [intros H; now contradiction H |].
  destruct (body response) as [[| b | n | f | s | l | d] |];
    try (intros H; now contradiction H).
  destruct (truthy (dict_get d "status" VNone)
            && py_in (dict_get d "status" VNone) [401; 403]) eqn:H1;
    [intros H; now contradiction H |].
  destruct (truthy (dict_get d "status" VNone)
            && negb (py_in (dict_get d "status" VNone) [200; 202])) eqn:H2.
  - destruct (truthy (dict_get d "messages" (VList []))).
    + destruct (py_getitem0 (dict_get d "messages" (VList []))) as [first |];
        [destruct first |]; intros H; now contradiction H.
    + intros H; now contradiction H.
  - intros _. exists d. repeat split; assumption.
Qed.

(** C10: a [login] that raises [NetworkError], [AuthenticationError] or
    [APIError] leaves [user_id], [address_id] and the authenticated flag as
    they were; and whenever [login] changes the session at all, the server
    answered, the HTTP status was neither 401 nor 403, and the envelope's
    inner status passed both checks. *)
Theorem login_error_leaves_session (env : Env) (self : AuthHandler) (w : World) :
  (forall e, fst (fst (run env (login self) w)) = Raise e ->
             is_login_error e = true ->
             snd (fst (run env (login self) w)) = self) /\
  (snd (fst (run env (login self) w)) <> self ->
   exists response d,
     transport env (wire w) (login_request (auth_config self)) = Responded response /\
     py_in (VInt (status_code response)) [401; 403] = false /\
     body response = Some (VDict d) /\
     truthy (dict_get d "status" VNone) && py_in (dict_get d "status" VNone) [401; 403]
     = false /\
     truthy (dict_get d "status" VNone)
     && negb (py_in (dict_get d "status" VNone) [200; 202]) = false).
Proof.
  rewrite run_login. cbn [fst snd].
  destruct (transport env (wire w) (login_request (auth_config self)))
    as [response | desc | e0]; cbn [fst snd]; split;
    try (intros; reflexivity); try (intros H; now contradiction H).
  - apply login_finish_error_keeps_state.
  - intros H. destruct (login_finish_change_passed response self H) as [d Hd].
    exists response, d. split; [reflexivity | exact Hd].
Qed.

(** C3: whatever the logout POST does, [logout] leaves [user_id] and
    [address_id] at [None] and the authenticated flag at [False]; a transport
    error of the POST is swallowed, and the only exceptions that leave
    [logout] are those that are not [httpx.RequestError]. *)
Theorem logout_always_resets (env : Env) (self : AuthHandler) (w : World) :
  user_id (snd (fst (run env (logout self) w))) = VNone /\
  address_id (snd (fst (run env (logout self) w))) = VNone /\
  is_authenticated (snd (fst (run env (logout self) w))) = false /\
  (forall desc,
     transport env (wire w) (logout_request (auth_config self)) = RequestError desc ->
     fst (fst (run env (logout self) w)) = Ok tt) /\
  (forall e,
     fst (fst (run env (logout self) w)) = Raise e ->
     transport env (wire w) (logout_request (auth_config self)) = OtherFailure e).
Proof.
  rewrite run_logout. cbn [fst snd]. repeat split.
  - intros desc ->. reflexivity.
  - intros e.
    destruct (transport env (wire w) (logout_request (auth_config self)));
      [discriminate | discriminate | intros H; injection H as ->; reflexivity].
Qed.

Local Arguments py_in : simpl never.
Local Arguments truthy : simpl never.
Local Arguments dict_get : simpl never.




End SessionProperties.

(** ** The gateway *)

Lemma mapM_Forall2 {A B : Type} (f : A -> result B) (l : list A) :
  forall ys, mapM f l = Ok ys -> Forall2 (fun x y => f x = Ok y) l ys.
Proof.
  induction l as [| x l IH]; cbn; intros ys H.
  - injection H as <-. constructor.
  - destruct (f x) as [y |] eqn:Hx; cbn in H; [| discriminate].
    destruct (mapM f l) as [ys' |]; cbn in H; [| discriminate].
    injection H as <-. constructor; [exact Hx | apply IH; reflexivity].
Qed.


Section GatewayProperties.
Context {ext : Externals}.

Lemma run_request (env : Env) (method path : string)
    (params : list (string * string)) (json : option value)
    (self : KnusprClient) (w : World) :
  let paced := run env (wait_sync (_rate_limiter self)) w in
  let self1 := set_rate_limiter (snd (fst paced)) self in
  let req := {| method := method; url := base_url (_config self) ++ path;
                params := params; json := json |} in
  run env (_request method path params json self) w
  = if _http self
    then ((match transport env (wire (snd paced)) req with
           | Responded r => _handle_response r
           | RequestError e =>
               Raise (NetworkError ("Request to " ++ path ++ " failed: " ++ e))
           | OtherFailure e => Raise e
           end, self1), sent req (snd paced))
    else ((Raise (KnusprError
                    "Client not initialized. Use 'with KnusprClient() as client:'"),
           self1), snd paced).
Proof.
  cbn zeta. unfold _request. rewrite run_bind, run_zoom. cbn [fst snd].
  pose proof (wait_run env Sync (_rate_limiter self) w) as (Hok & _).
  cbn zeta in Hok. cbn [wait] in Hok. rewrite Hok.
  rewrite run_bind. unfold _ensure_client.
  cbn [set_rate_limiter _http].
  destruct (_http self) eqn:Hh; cbn [run fst snd]; [| reflexivity].
  rewrite run_bind. cbn [get run fst snd]. rewrite run_bind.
  cbn [request_or_NetworkError run fst snd set_rate_limiter _config wire clock slept].
  destruct (transport env _ _); reflexivity.
Qed.

(** C8: with [user_id] or [address_id] unresolved, [get_delivery_slots] is the
    computation that raises the precondition error at once: it reads no
    clock, sleeps for nothing and sends nothing, so the client and the world
    are as before. *)
Theorem get_delivery_slots_precondition (self : KnusprClient) :
  user_id (_auth self) = VNone \/ address_id (_auth self) = VNone ->
  get_delivery_slots self
  = Ret (Raise (KnusprError "user_id and address_id required. Are you logged in?"),
         self) /\
  forall env w,
    run env (get_delivery_slots self) w
    = ((Raise (KnusprError "user_id and address_id required. Are you logged in?"),
        self), w).
Proof.
  intros H.
  assert (E : get_delivery_slots self
              = Ret (Raise (KnusprError
                              "user_id and address_id required. Are you logged in?"),
                     self)).
  { unfold get_delivery_slots, bind, get. cbn [prog_bind fst snd].
    destruct H as [-> | ->]; [reflexivity |].
    rewrite orb_true_r. reflexivity. }
  split; [exact E |]. intros env w. rewrite E. reflexivity.
Qed.

(** With a resolved session and an open transport the same call does reach
    the wire. *)
Lemma get_delivery_slots_sends (env : Env) (self : KnusprClient) (w : World) :
  truthy (user_id (_auth self)) = true ->
  truthy (address_id (_auth self)) = true ->
  _http self = true ->
  exists req,
    url req = base_url (_config self) ++ TIMESLOTS /\
    wire (snd (run env (get_delivery_slots self) w)) = req :: wire w.
Proof.
  intros Hu Ha Hh. unfold get_delivery_slots. rewrite run_bind.
  cbn [get run fst snd]. rewrite Hu, Ha. cbn [negb orb].
  rewrite run_bind. unfold _get. rewrite run_request. rewrite Hh.
  cbn [fst snd].
  pose proof (wait_run env Sync (_rate_limiter self) w) as (_ & _ & _ & Hw & _).
  cbn zeta in Hw. cbn [wait] in Hw.
  eexists. split; [| destruct (match transport env _ _ with
                               | Responded r => _handle_response r
                               | RequestError e => _
                               | OtherFailure e => _ end);
                     cbn [lift run fst snd sent wire]; rewrite Hw; reflexivity].
  reflexivity.
Qed.

(** *** Bare payloads *)

Lemma handle_response_list_body (response : Response) (l : list value) :
  is_success response = true -> body response = Some (VList l) ->
  _handle_response response = Raise AttributeError.
Proof.
  intros Hs Hb. destruct (success_not_special response Hs) as [H1 H2].
  unfold _handle_response, raise_for_status, response_json.
  rewrite H1, H2, Hs, Hb. reflexivity.
Qed.

(** C5 (amended): on a successful status, an object body that is a bare
    payload (no [data] field, no integer [status] of 400 or more) is returned
    as it is; a list is returned when it is the [data] field of an object
    body, and the delivery-slot parsing accepts such a list as well as a
    [{slots: [...]}] wrapper; a body that is itself a list is not handled,
    [body.get] raises [AttributeError], so a list comes back only as the
    [data] field of an object body. *)
Theorem handle_response_bare_payload (response : Response) :
  is_success response = true ->
  (forall d, body response = Some (VDict d) -> no_inner_error d ->
     (dict_lookup "data" d = None -> _handle_response response = Ok (VDict d)) /\
     (forall l, dict_lookup "data" d = Some (VList l) ->
                _handle_response response = Ok (VList l))) /\
  (forall l, parse_slots (VList l) = mapM validate_DeliverySlot l) /\
  (forall d l, dict_lookup "slots" d = Some (VList l) ->
               parse_slots (VDict d) = mapM validate_DeliverySlot l) /\
  (forall l, body response = Some (VList l) ->
             _handle_response response = Raise AttributeError) /\
  (forall l, _handle_response response = Ok (VList l) ->
             exists d, body response = Some (VDict d) /\
                       dict_lookup "data" d = Some (VList l)).
Proof.
  intros Hs. split; [| split; [| split; [| split]]]; [repeat split | | | |].
  - intros Hd. rewrite (handle_response_object response d Hs H). cbn zeta.
    rewrite (no_inner_error_test d H0). unfold dict_get. rewrite Hd. reflexivity.
  - intros l Hd. rewrite (handle_response_object response d Hs H). cbn zeta.
    rewrite (no_inner_error_test d H0). unfold dict_get. rewrite Hd. reflexivity.
  - reflexivity.
  - intros d l Hl. unfold parse_slots. cbn [isinstance_list py_get rbind].
    unfold dict_get. rewrite Hl. reflexivity.
  - intros l Hb. exact (handle_response_list_body response l Hs Hb).
  - intros l H. destruct (success_not_special response Hs) as [H1 H2].
    destruct (body response) as [[| b | n | f | s | l' | d] |] eqn:Hb;
      try (unfold _handle_response, raise_for_status, response_json in H;
           rewrite H1, H2, Hs, Hb in H; discriminate H).
    exists d. split; [reflexivity |].
    rewrite (handle_response_object response d Hs Hb) in H. cbn zeta in H.
    destruct (truthy (dict_get d "status" VNone)
              && isinstance_int (dict_get d "status" VNone)
              && py_int_ge (dict_get d "status" VNone) 400).
    + destruct (if truthy (dict_get d "messages" (VList []))
                then _ else _); discriminate H.
    + injection H as H. unfold dict_get in H.
      destruct (dict_lookup "data" d) as [v |]; [congruence | discriminate H].
Qed.

(** *** The cart *)

Lemma cart_loop_mapM (entries : list (string * value)) :
  forall acc,
    cart_loop acc entries
    = (its <- mapM inject_and_validate entries ;; Ok (acc ++ its)%list)%result.
Proof.
  induction entries as [| [k v] entries IH]; intros acc; cbn [cart_loop mapM].
  - cbn. rewrite app_nil_r. reflexivity.
  - unfold inject_and_validate at 1. cbn [fst snd].
    destruct (of_option (py_int k) ValueError) as [n |]; cbn [rbind]; [| reflexivity].
    destruct (py_setitem v "productId" (VInt n)) as [v' |]; cbn [rbind];
      [| reflexivity].
    destruct (of_option (CartItem_model_validate v') ValidationError) as [item |];
      cbn [rbind]; [| reflexivity].
    rewrite IH. destruct (mapM inject_and_validate entries) as [its |]; cbn [rbind];
      [| reflexivity].
    rewrite <- app_assoc. reflexivity.
Qed.


(** What [get_cart] builds from the unwrapped response, by the shape of
    [items]. *)
Lemma parse_cart_shapes (d : list (string * value)) :
  (forall entries, dict_get d "items" (VDict []) = VDict entries ->
     parse_cart (VDict d)
     = (its <- mapM inject_and_validate entries ;;
        Cart_new (dict_get d "totalPrice" (VFloat 0%float))
                 (Z.of_nat (List.length its))
                 (dict_get d "canMakeOrder" (VBool false)) its)%result) /\
  (forall l, dict_get d "items" (VDict []) = VList l ->
     parse_cart (VDict d)
     = (its <- mapM validate_CartItem l ;;
        Cart_new (dict_get d "totalPrice" (VFloat 0%float))
                 (Z.of_nat (List.length its))
                 (dict_get d "canMakeOrder" (VBool false)) its)%result).
Proof.
  split.
  - intros entries H. unfold parse_cart. cbn [py_get rbind]. rewrite H.
    rewrite cart_loop_mapM.
    destruct (mapM inject_and_validate entries); reflexivity.
  - intros l H. unfold parse_cart. cbn [py_get rbind]. rewrite H.
    fold validate_CartItem. destruct (mapM validate_CartItem l); reflexivity.
Qed.



(** X27: [get_cart] reads three fields of the response, [items],
    [totalPrice] and [canMakeOrder], and nothing else: two responses that
    agree on them give the same cart or the same exception, so no other field
    the server sends (a count, a currency) can reach the result. *)
Lemma parse_cart_reads_three_fields (d d' : list (string * value)) :
  dict_lookup "items" d = dict_lookup "items" d' ->
  dict_lookup "totalPrice" d = dict_lookup "totalPrice" d' ->
  dict_lookup "canMakeOrder" d = dict_lookup "canMakeOrder" d' ->
  parse_cart (VDict d) = parse_cart (VDict d').
Proof.
  intros H1 H2 H3. unfold parse_cart. cbn [py_get]. unfold dict_get.
  rewrite H1, H2, H3. reflexivity.
Qed.

(** *** Search *)

Lemma promoted_entry_iff (p : value) :
  promoted_entry p = true <-> has_promoted_badge p.
Proof.
  unfold promoted_entry, has_promoted_badge. split.
  - destruct p as [| | | | | | d]; try discriminate.
    unfold dict_get. destruct (dict_lookup "badge" d) as [badge |] eqn:Hb;
      [| discriminate].
    destruct badge as [| | | | | bs |]; try discriminate.
    cbn [is_promoted]. intros H. apply existsb_exists in H.
    destruct H as [b [Hin Hb']]. destruct b as [| | | | | | b]; try discriminate.
    unfold dict_get in Hb'. destruct (dict_lookup "slug" b) as [slug |] eqn:Hs;
      [| discriminate].
    destruct slug as [| | | | t | |]; try discriminate.
    cbn [py_eq_str] in Hb'. apply String.eqb_eq in Hb'. subst t.
    exists d, bs, b. repeat split; assumption.
  - intros (d & bs & b & -> & Hb & Hin & Hs).
    unfold dict_get. rewrite Hb. cbn [is_promoted]. apply existsb_exists.
    exists (VDict b). split; [exact Hin |].
    unfold dict_get. rewrite Hs. reflexivity.
Qed.

Lemma search_loop_success (ps : list value) :
  forall acc results,
    search_loop acc ps = Ok results ->
    exists rs,
      results = (acc ++ rs)%list /\
      Forall2 (fun p r => SearchResult_model_validate p = Some r)
              (filter (fun p => negb (promoted_entry p)) ps) rs.
Proof.
  induction ps as [| p ps IH]; intros acc results H; cbn [search_loop] in H.
  - injection H as <-. exists []. rewrite app_nil_r. split; [reflexivity | constructor].
  - destruct p as [| | | | | | d]; try discriminate H.
    cbn [py_get rbind] in H. cbn [filter promoted_entry].
    destruct (is_promoted (dict_get d "badge" VNone)); cbn [negb].
    + apply IH. exact H.
    + destruct (SearchResult_model_validate (VDict d)) as [r |] eqn:Hv;
        [| discriminate H].
      cbn [of_option rbind] in H. destruct (IH _ _ H) as [rs [-> HF]].
      exists (r :: rs). rewrite <- app_assoc. split; [reflexivity |].
      constructor; assumption.
Qed.

Lemma search_loop_total (ps : list value) :
  Forall (fun p => isinstance_dict p = true) ps ->
  forall acc,
    search_loop acc ps
    = (rs <- mapM validate_SearchResult (filter (fun p => negb (promoted_entry p)) ps) ;;
       Ok (acc ++ rs)%list)%result.
Proof.
  induction 1 as [| p ps Hp _ IH]; intros acc; cbn [search_loop filter mapM].
  - cbn. rewrite app_nil_r. reflexivity.
  - destruct p as [| | | | | | d]; try discriminate Hp.
    cbn [py_get rbind promoted_entry].
    destruct (is_promoted (dict_get d "badge" VNone)); cbn [negb].
    + apply IH.
    + cbn [mapM]. unfold validate_SearchResult at 1.
      destruct (of_option (SearchResult_model_validate (VDict d)) ValidationError)
        as [r |]; cbn [rbind]; [| reflexivity].
      rewrite IH.
      destruct (mapM validate_SearchResult _) as [rs |]; cbn [rbind]; [| reflexivity].
      rewrite <- app_assoc. reflexivity.
Qed.

Lemma run_search_products (env : Env) (query : string) (limit : Z)
    (self : KnusprClient) (w : World) :
  run env (search_products query limit self) w
  = ((rbind (fst (fst (run env (_get SEARCH (search_params query limit) self) w)))
            (fun data =>
               (raw_products <- py_get data "productList" (VList []) ;;
                ps <- py_iter raw_products ;;
                search_loop [] ps)%result),
      snd (fst (run env (_get SEARCH (search_params query limit) self) w))),
     snd (run env (_get SEARCH (search_params query limit) self) w)).
Proof.
  unfold search_products. rewrite run_bind.
  destruct (run env (_get SEARCH (search_params query limit) self) w)
    as [[r s] w']. cbn [fst snd].
  destruct r as [data |]; [| reflexivity]. cbn [rbind].
  rewrite run_bind. cbn [lift run fst snd].
  destruct (py_get data "productList" (VList [])) as [raw |]; [| reflexivity].
  cbn [rbind]. rewrite run_bind. cbn [lift run fst snd].
  destruct (py_iter raw); reflexivity.
Qed.

(** Whenever [search_products] returns, its results are, one for one and in
    the original order, the validated entries of [productList] that carry no
    badge list with an entry of slug ["promoted"]: every promoted entry is
    left out and the others keep their order.  It does return whenever every
    entry is an object and every entry that is not promoted validates. *)
Lemma search_products_excludes_promoted (env : Env) (query : string) (limit : Z)
    (self : KnusprClient) (w : World) :
  (forall results,
     fst (fst (run env (search_products query limit self) w)) = Ok results ->
     exists data raw ps,
       fst (fst (run env (_get SEARCH (search_params query limit) self) w)) = Ok data /\
       py_get data "productList" (VList []) = Ok raw /\
       py_iter raw = Ok ps /\
       Forall2 (fun p r => SearchResult_model_validate p = Some r)
               (filter (fun p => negb (promoted_entry p)) ps) results /\
       (forall p, In p ps -> has_promoted_badge p ->
                  ~ In p (filter (fun p => negb (promoted_entry p)) ps)) /\
       (forall p, In p ps -> ~ has_promoted_badge p ->
                  In p (filter (fun p => negb (promoted_entry p)) ps))) /\
  (forall d ps,
     fst (fst (run env (_get SEARCH (search_params query limit) self) w))
     = Ok (VDict d) ->
     dict_get d "productList" (VList []) = VList ps ->
     Forall (fun p => isinstance_dict p = true) ps ->
     fst (fst (run env (search_products query limit self) w))
     = mapM validate_SearchResult (filter (fun p => negb (promoted_entry p)) ps)).
Proof.
  rewrite run_search_products. cbn [fst snd]. split.
  - intros results H.
    destruct (fst (fst (run env (_get SEARCH (search_params query limit) self) w)))
      as [data |]; [| discriminate H].
    cbn [rbind] in H.
    destruct (py_get data "productList" (VList [])) as [raw |] eqn:Hraw;
      [| discriminate H].
    cbn [rbind] in H.
    destruct (py_iter raw) as [ps |] eqn:Hps; [| discriminate H].
    cbn [rbind] in H.
    destruct (search_loop_success ps [] results H) as [rs [-> HF]].
    exists data, raw, ps.
    split; [reflexivity |]. split; [exact Hraw |]. split; [exact Hps |].
    split; [exact HF |]. split.
    + intros p _ Hb Hin. apply filter_In in Hin. destruct Hin as [_ Hn].
      apply promoted_entry_iff in Hb. rewrite Hb in Hn. discriminate Hn.
    + intros p Hin Hb. apply filter_In. split; [exact Hin |].
      destruct (promoted_entry p) eqn:Hpe; [| reflexivity].
      exfalso. apply Hb. apply promoted_entry_iff. exact Hpe.
  - intros d ps -> Hp HF. cbn [rbind py_get]. rewrite Hp. cbn [py_iter rbind].
    rewrite (search_loop_total ps HF).
    destruct (mapM validate_SearchResult _); reflexivity.
Qed.

(** The loop does not get past an entry that it keeps and that validation
    refuses: it raises, at that entry or at an earlier one. *)
Lemma search_loop_refused_entry (ps : list value) (p0 : value) :
  In p0 ps ->
  promoted_entry p0 = false ->
  SearchResult_model_validate p0 = None ->
  forall acc,
    search_loop acc ps = Raise ValidationError \/
    (search_loop acc ps = Raise AttributeError /\
     exists p, In p ps /\ isinstance_dict p = false).
Proof.
  intros Hin Hkeep Hrefused.
  induction ps as [| p ps IH]; intros acc; [destruct Hin |].
  cbn [search_loop].
  destruct p as [| | | | | | d];
    try (right; split; [reflexivity |];
         eexists; split; [left; reflexivity | reflexivity]).
  cbn [py_get rbind].
  assert (Hrest : In p0 ps ->
                  forall acc',
                    search_loop acc' ps = Raise ValidationError \/
                    (search_loop acc' ps = Raise AttributeError /\
                     exists p, In p (VDict d :: ps) /\ isinstance_dict p = false)).
  { intros Hin' acc'. destruct (IH Hin' acc') as [H | [H [p [Hp Hd]]]].
    - left. exact H.
    - right. split; [exact H |]. exists p. split; [right; exact Hp | exact Hd]. }
  destruct (is_promoted (dict_get d "badge" VNone)) eqn:Hprom.
  - destruct Hin as [<- | Hin]; [| apply Hrest; exact Hin].
    cbn [promoted_entry] in Hkeep. rewrite Hprom in Hkeep. discriminate Hkeep.
  - destruct (SearchResult_model_validate (VDict d)) as [r |] eqn:Hv;
      cbn [of_option rbind]; [| left; reflexivity].
    destruct Hin as [<- | Hin]; [| apply Hrest; exact Hin].
    rewrite Hrefused in Hv. discriminate Hv.
Qed.

(** C7, at the failing inputs: [SearchResult] declares [badge] as
    [str | None], while the loop of [search_products] reads [badge] as a list
    of objects.  So whenever the product list holds an entry that the filter
    keeps (no badge with slug ["promoted"]) and whose [badge] is a list, be it
    empty, the call returns no list at all: validation refuses the entry and
    the call raises [ValidationError] (or [AttributeError], when an earlier
    entry of the list is not an object).  The surviving entries do not appear
    in a returned list. *)
Theorem search_products_raises_on_badge_list (env : Env) (query : string)
    (limit : Z) (self : KnusprClient) (w : World)
    (d : list (string * value)) (ps : list value)
    (dp : list (string * value)) (bs : list value) :
  badge_declared_str_or_none ->
  fst (fst (run env (_get SEARCH (search_params query limit) self) w))
  = Ok (VDict d) ->
  dict_get d "productList" (VList []) = VList ps ->
  In (VDict dp) ps ->
  dict_lookup "badge" dp = Some (VList bs) ->
  ~ has_promoted_badge (VDict dp) ->
  (fst (fst (run env (search_products query limit self) w)) = Raise ValidationError \/
   fst (fst (run env (search_products query limit self) w)) = Raise AttributeError) /\
  (Forall (fun p => isinstance_dict p = true) ps ->
   fst (fst (run env (search_products query limit self) w)) = Raise ValidationError).
Proof.
  intros Hdecl Hget Hlist Hin Hbadge Hkeep.
  rewrite run_search_products. cbn [fst snd]. rewrite Hget.
  cbn [rbind py_get]. rewrite Hlist. cbn [py_iter rbind].
  assert (Hk : promoted_entry (VDict dp) = false).
  { destruct (promoted_entry (VDict dp)) eqn:Hpe; [| reflexivity].
    exfalso. apply Hkeep. apply promoted_entry_iff. exact Hpe. }
  destruct (search_loop_refused_entry ps (VDict dp) Hin Hk (Hdecl dp bs Hbadge) [])
    as [H | [H [p [Hp Hd]]]].
  - split; [left; exact H | intros _; exact H].
  - split; [right; exact H |].
    intros HF. rewrite Forall_forall in HF. rewrite (HF p Hp) in Hd.
    discriminate Hd.
Qed.

End GatewayProperties.

(** ** The statements at sample inputs *)


(** C5, as stated, fails: a successful response whose body is a JSON list
    is not returned; [body.get("status")] raises [AttributeError]. *)
Lemma handle_response_bare_list_counterexample :
  ~ (forall (response : Response) (l : list value),
        is_success response = true -> body response = Some (VList l) ->
        _handle_response response = Ok (VList l)).
Proof.
  intros H.
  specialize (H (json_response 200 (VList [VDict [("id", VStr "slot-1")]])) _
                eq_refl eq_refl).
  vm_compute in H. discriminate H.
Qed.

Lemma handle_response_bare_payload_witness :
  _handle_response (json_response 200 (VDict [("slots", VList [])]))
  = Ok (VDict [("slots", VList [])]) /\
  _handle_response (json_response 200 (VDict slots_envelope))
  = Ok (VList [VDict [("id", VStr "slot-1")]]) /\
  _handle_response (json_response 200 (VList [])) = Raise AttributeError.
Proof.
  split; [| split].
  - apply (proj1 (proj1 (handle_response_bare_payload (ext := test_externals)
                           (json_response 200 (VDict [("slots", VList [])])) eq_refl)
                   [("slots", VList [])] eq_refl
                   ltac:(intros n Hn; discriminate Hn))).
    reflexivity.
  - exact (proj2 (proj1 (handle_response_bare_payload (ext := test_externals)
                           (json_response 200 (VDict slots_envelope)) eq_refl)
                   slots_envelope eq_refl
                   ltac:(intros n Hn; vm_compute in Hn; injection Hn as <-; lia))
             [VDict [("id", VStr "slot-1")]] eq_refl).
  - exact (proj1 (proj2 (proj2 (proj2 (handle_response_bare_payload
                                         (ext := test_externals)
                                         (json_response 200 (VList [])) eq_refl))))
             [] eq_refl).
Defined.


(** What [login] does at that input: it succeeds and marks the session as
    authenticated, with both identifiers unresolved. *)
Example login_zero_status_succeeds :
  fst (run (constant_server (json_response 200 (VDict [("status", VInt 0)])))
           (login (ext := test_externals) (AuthHandler_init test_config))
           (world_at 0))
  = (Ok (VDict [("status", VInt 0)]),
     {| auth_config := test_config; user_id := VNone; address_id := VNone;
        _authenticated := true |}).
Proof. vm_compute. reflexivity. Qed.


Lemma login_error_leaves_session_witness :
  snd (fst (run (constant_server {| status_code := 401; body := None |})
                (login (ext := test_externals)
                       {| auth_config := test_config; user_id := VInt 7;
                          address_id := VInt 8; _authenticated := true |})
                (world_at 0)))
  = {| auth_config := test_config; user_id := VInt 7; address_id := VInt 8;
       _authenticated := true |}.
Proof.
  apply (proj1 (login_error_leaves_session (ext := test_externals) _ _ _)
           (AuthenticationError "Invalid credentials")); reflexivity.
Defined.

Lemma logout_always_resets_witness :
  fst (run unreachable_server
           (logout (ext := test_externals)
                   {| auth_config := test_config; user_id := VInt 12345;
                      address_id := VInt 67890; _authenticated := true |})
           (world_at 0))
  = (Ok tt, AuthHandler_init test_config).
Proof.
  pose proof (logout_always_resets (ext := test_externals) unreachable_server
                {| auth_config := test_config; user_id := VInt 12345;
                   address_id := VInt 67890; _authenticated := true |}
                (world_at 0)) as (_ & _ & _ & H & _).
  rewrite (surjective_pairing (fst (run _ _ _))), (H "Connection refused" eq_refl).
  reflexivity.
Defined.

Lemma get_delivery_slots_precondition_witness :
  run (constant_server (json_response 200 (VList [])))
      (get_delivery_slots (ext := test_externals) half_resolved_client) (world_at 0)
  = ((Raise (KnusprError "user_id and address_id required. Are you logged in?"),
      half_resolved_client), world_at 0).
Proof.
  apply (proj2 (get_delivery_slots_precondition (ext := test_externals)
                  half_resolved_client ltac:(right; reflexivity))).
Defined.


(** The stand-in validator follows the declaration of [badge]. *)
Lemma sample_badge_declared : badge_declared_str_or_none (ext := test_externals).
Proof.
  intros d bs Hb. cbn. unfold sample_SearchResult. rewrite Hb.
  cbn [sample_optional_str].
  destruct (dict_lookup "productId" d) as [[| | n | | | |] |]; try reflexivity.
  destruct (dict_lookup "productName" d) as [[| | | | name | |] |]; reflexivity.
Qed.

Lemma search_products_raises_on_badge_list_witness :
  fst (fst (run (constant_server (json_response 200 search_response))
                (search_products (ext := test_externals) "Milch" 10 logged_in_client)
                (world_at 0)))
  = Raise ValidationError.
Proof.
  apply (proj2 (search_products_raises_on_badge_list (ext := test_externals)
                  (constant_server (json_response 200 search_response))
                  "Milch" 10 logged_in_client (world_at 0)
                  search_data
                  [product 1001 "Bio Vollmilch 3,5%" [];
                   product 9999 "Sponsored" [VDict [("slug", VStr "promoted")]];
                   product 1002 "Milch 1,5%" [VDict [("slug", VStr "bio")]]]
                  [("productId", VInt 1002); ("productName", VStr "Milch 1,5%");
                   ("badge", VList [VDict [("slug", VStr "bio")]])]
                  [VDict [("slug", VStr "bio")]]
                  sample_badge_declared eq_refl eq_refl
                  (or_intror (or_intror (or_introl eq_refl))) eq_refl
                  ltac:(intros (d0 & bs0 & b0 & Hd0 & Hb0 & Hin0 & Hs0);
                        injection Hd0 as <-; vm_compute in Hb0;
                        injection Hb0 as <-;
                        destruct Hin0 as [Hin0 | []];
                        injection Hin0 as <-; discriminate Hs0))).
  repeat constructor.
Defined.

(** ** The package's tests, replayed on the model *)

Example test_first_call_no_wait :
  slept (snd (run unreachable_server (wait_sync (RateLimiter_init (1 # 10)))
                  (world_at (1000 # 1))))
  = [].
Proof. vm_compute. reflexivity. Qed.

Example test_second_call_waits :
  slept (snd (session unreachable_server [(0%Q, Sync); (0%Q, Sync)]
                      (RateLimiter_init (1 # 10)) (world_at (1000 # 1))))
  = [(Blocking, 1 # 10)].
Proof. vm_compute. reflexivity. Qed.

Example test_no_wait_after_enough_time :
  slept (snd (session unreachable_server [(0%Q, Sync); (1 # 10, Sync)]
                      (RateLimiter_init (5 # 100)) (world_at (1000 # 1))))
  = [].
Proof. vm_compute. reflexivity. Qed.

Example test_login_invalid_credentials_http_401 :
  fst (run (constant_server {| status_code := 401; body := None |})
           (login (ext := test_externals) (AuthHandler_init test_config))
           (world_at 0))
  = (Raise (AuthenticationError "Invalid credentials"), AuthHandler_init test_config).
Proof. vm_compute. reflexivity. Qed.

Example test_logout_clears_state :
  fst (run (constant_server (json_response 200 (VDict [("status", VInt 200)])))
           (logout (ext := test_externals) (_auth logged_in_client)) (world_at 0))
  = (Ok tt, AuthHandler_init test_config).
Proof. vm_compute. reflexivity. Qed.

(** The filter on a response whose surviving entries validate. *)
Example test_search_returns_results :
  match fst (fst (run (constant_server (json_response 200 plain_search_response))
                      (search_products (ext := test_externals) "Milch" 10
                                       logged_in_client)
                      (world_at (1000 # 1)))) with
  | Ok results => map sr_id results = [1001; 1002]
  | Raise _ => False
  end.
Proof. vm_compute. reflexivity. Qed.

Example test_client_not_initialized_raises :
  fst (fst (run unreachable_server
                (search_products (ext := test_externals) "test" 10
                                 (KnusprClient_init test_config))
                (world_at (1000 # 1))))
  = Raise (KnusprError "Client not initialized. Use 'with KnusprClient() as client:'").
Proof. vm_compute. reflexivity. Qed.

Example test_rate_limit_error :
  fst (fst (run (constant_server {| status_code := 429; body := None |})
                (search_products (ext := test_externals) "test" 10 logged_in_client)
                (world_at (1000 # 1))))
  = Raise (RateLimitError "Rate limit exceeded. Increase min_request_interval.").
Proof. vm_compute. reflexivity. Qed.

Example test_session_expired :
  fst (fst (run (constant_server {| status_code := 401; body := None |})
                (search_products (ext := test_externals) "test" 10 logged_in_client)
                (world_at (1000 # 1))))
  = Raise (AuthenticationError "Session expired or invalid").
Proof. vm_compute. reflexivity. Qed.

Example test_context_manager_logs_in_and_out :
  let env := constant_server (json_response 200 login_response) in
  let inside := run env (client_enter (ext := test_externals)
                                      (KnusprClient_init test_config))
                    (world_at (1000 # 1)) in
  let outside := run env (client_exit (ext := test_externals) (snd (fst inside)))
                     (snd inside) in
  is_authenticated (_auth (snd (fst inside))) = true /\
  user_id (_auth (snd (fst inside))) = VInt 12345 /\
  address_id (_auth (snd (fst inside))) = VInt 67890 /\
  is_authenticated (_auth (snd (fst outside))) = false /\
  _http (snd (fst outside)) = false.
Proof. vm_compute. repeat split; reflexivity. Qed.

(** * Further properties of the package *)

(** ** The pacer, continued *)

(** X3: one wait sleeps at most once; what it sleeps is positive, so the
    sleep function never gets a zero or negative argument, and it is at most
    the interval whenever the stored timestamp is not ahead of the clock. *)
Theorem wait_sleeps_once_positive (env : Env) (how : entry) (self : RateLimiter)
    (w : World) :
  exists new,
    slept (snd (run env (wait how self) w)) = (new ++ slept w)%list /\
    (List.length new <= 1)%nat /\
    Forall (fun p => (0 < snd p)%Q /\
                     ((_last_request self <= reading env w)%Q ->
                      (snd p <= _min_interval self)%Q)) new.
Proof.
  pose proof (wait_run env how self w) as (_ & _ & _ & _ & Hs).
  cbn zeta in Hs. rewrite Hs.
  destruct (Qlt_bool (reading env w - _last_request self) (_min_interval self)) eqn:E.
  - apply Qlt_bool_true in E. eexists. split; [reflexivity |].
    split; [cbn; lia |]. constructor; [| constructor]. cbn [snd]. split.
    + lra.
    + intros H. lra.
  - exists []. split; [reflexivity |]. split; [cbn; lia | constructor].
Qed.

(** X4: with an interval of zero (or less), as the package's tests configure
    it, a session never sleeps, whatever the mix of entry points, provided the
    stored timestamp is not ahead of the clock and the caller's idle times are
    not negative. *)
Theorem session_zero_interval_never_sleeps (env : Env) (calls : list (Q * entry)) :
  env_ok env ->
  Forall (fun c => (0 <= fst c)%Q) calls ->
  forall (self : RateLimiter) (w : World),
    (_min_interval self <= 0)%Q ->
    (_last_request self <= clock w)%Q ->
    slept (snd (session env calls self w)) = slept w.
Proof.
  intros Hok Hidle. induction Hidle as [| [secs how] calls Hsecs _ IH];
    intros self w Hmin Hlast.
  - reflexivity.
  - cbn [session]. cbn [fst] in Hsecs.
    pose proof (wait_run env how self (idle secs w)) as (_ & Hm & Hl & _ & Hs).
    cbn zeta in Hs.
    destruct (run env (wait how self) (idle secs w)) as [[r self'] w'] eqn:Hrun.
    cbn [fst snd] in Hm, Hl, Hs.
    specialize (IH self' w').
    destruct (session env calls self' w') as [[ts self''] w''] eqn:Hsess.
    cbn [fst snd] in IH |- *.
    rewrite IH; [| rewrite Hm; exact Hmin | rewrite Hl; apply Qle_refl].
    rewrite Hs.
    replace (Qlt_bool (reading env (idle secs w) - _last_request self)
                      (_min_interval self)) with false; [reflexivity |].
    symmetry. apply Qlt_bool_false. unfold reading, idle. cbn [clock].
    destruct Hok as [Hd _]. pose proof (Hd (idle secs w)) as Hd'.
    unfold idle in Hd'. lra.
Qed.

Lemma session_zero_interval_never_sleeps_witness :
  slept (snd (session unreachable_server [(0%Q, Sync); (0%Q, Async); (0%Q, Sync)]
                      (RateLimiter_init 0) (world_at (1000 # 1))))
  = [].
Proof.
  apply (session_zero_interval_never_sleeps unreachable_server
           [(0%Q, Sync); (0%Q, Async); (0%Q, Sync)]
           ltac:(split; intros; cbn; apply Qle_refl)
           ltac:(repeat constructor; cbn; discriminate)
           (RateLimiter_init 0) (world_at (1000 # 1)));
    cbn; discriminate.
Defined.

(** X1: in any sequence of waits on one pacer, through either entry point
    and with any idle time in between, starting with a timestamp that is not
    ahead of the clock and on a clock that does not run backwards: there is
    at most one sleep per call, every sleep is for a positive time of at most
    the interval, so that [n] calls ask for at most [n] intervals of sleep;
    the interval is never changed, nothing is sent, and the timestamp the
    session leaves is again not ahead of the clock. *)
Theorem session_sleeps_bounded (env : Env) (calls : list (Q * entry)) :
  env_ok env ->
  Forall (fun c => (0 <= fst c)%Q) calls ->
  forall (self : RateLimiter) (w : World),
    (_last_request self <= clock w)%Q ->
    exists new,
      slept (snd (session env calls self w)) = (new ++ slept w)%list /\
      (List.length new <= List.length calls)%nat /\
      Forall (fun p => (0 < snd p)%Q /\ (snd p <= _min_interval self)%Q) new /\
      _min_interval (snd (fst (session env calls self w))) = _min_interval self /\
      (_last_request (snd (fst (session env calls self w)))
       <= clock (snd (session env calls self w)))%Q /\
      wire (snd (session env calls self w)) = wire w.
Proof.
  intros Hok Hidle. induction Hidle as [| [secs how] calls Hsecs _ IH];
    intros self w Hlast.
  - exists []. cbn [session fst snd app List.length].
    split; [reflexivity |]. split; [lia |]. split; [constructor |].
    split; [reflexivity |]. split; [exact Hlast | reflexivity].
  - cbn [session]. cbn [fst] in Hsecs.
    pose proof (wait_run env how self (idle secs w)) as (_ & Hm & Hl & Hw & Hs).
    cbn zeta in Hs.
    destruct (run env (wait how self) (idle secs w)) as [[r self'] w'] eqn:Hrun.
    cbn [fst snd] in Hm, Hl, Hw, Hs.
    assert (Hlast' : (_last_request self' <= clock w')%Q)
      by (rewrite Hl; apply Qle_refl).
    destruct (IH self' w' Hlast') as (new & Hnew & Hlen & Hall & Hmin & Hts & Hwire).
    destruct (session env calls self' w') as [[ts self''] w''] eqn:Hsess.
    cbn [fst snd] in Hnew, Hmin, Hts, Hwire |- *.
    assert (Helapsed : (0 <= reading env (idle secs w) - _last_request self)%Q).
    { unfold reading, idle. cbn [clock].
      destruct Hok as [Hd _]. pose proof (Hd (idle secs w)) as Hd'.
      unfold idle in Hd'. lra. }
    rewrite Hnew, Hs, app_assoc.
    eexists. split; [reflexivity |].
    split; [| split; [| split; [| split]]].
    + rewrite length_app. destruct (Qlt_bool _ _); cbn [List.length]; lia.
    + apply Forall_app. split.
      * rewrite Hm in Hall. exact Hall.
      * destruct (Qlt_bool (reading env (idle secs w) - _last_request self)
                           (_min_interval self)) eqn:E; [| constructor].
        apply Qlt_bool_true in E. constructor; [| constructor].
        cbn [snd]. split; lra.
    + rewrite Hmin. exact Hm.
    + exact Hts.
    + rewrite Hwire, Hw. reflexivity.
Qed.

Lemma session_sleeps_bounded_witness :
  (List.length
     (slept (snd (session unreachable_server
                          [(0%Q, Sync); (0%Q, Async); (5 # 100, Sync)]
                          (RateLimiter_init (1 # 10)) (world_at (1000 # 1)))))
   <= 3)%nat.
Proof.
  destruct (session_sleeps_bounded unreachable_server
              [(0%Q, Sync); (0%Q, Async); (5 # 100, Sync)]
              ltac:(split; intros; cbn; apply Qle_refl)
              ltac:(repeat constructor; cbn; discriminate)
              (RateLimiter_init (1 # 10)) (world_at (1000 # 1))
              ltac:(cbn; discriminate))
    as (new & Hnew & Hlen & _).
  rewrite Hnew, length_app. cbn [slept world_at List.length] in *. lia.
Defined.

(** ** The session handler, continued *)

Section MoreSessionProperties.
Context {ext : Externals}.

Ltac finish_cases :=
  unfold login_finish, st_bind, st_lift, st_raise, st_ret, assign, response_json,
    of_option, py_get;
  repeat (cbn in *;
          match goal with
          | |- context [if ?c then _ else _] => destruct c eqn:?
          | |- context [match ?x with _ => _ end] => destruct x eqn:?
          end).

Lemma login_finish_keeps_config (response : Response) (self : AuthHandler) :
  auth_config (snd (login_finish response self)) = auth_config self.
Proof. finish_cases; reflexivity. Qed.

Lemma login_finish_flag (response : Response) (self : AuthHandler) :
  (forall v, fst (login_finish response self) = Ok v ->
             _authenticated (snd (login_finish response self)) = true /\
             body response = Some v) /\
  (forall e, fst (login_finish response self) = Raise e ->
             _authenticated (snd (login_finish response self)) = _authenticated self).
Proof.
  split.
  - finish_cases; intros ret_v H; try discriminate H.
    injection H as <-. split; [reflexivity |].
    repeat match goal with
           | Hx : match ?x with _ => _ end = Ok _ |- _ =>
               destruct x; try discriminate Hx; injection Hx as <-
           end.
    reflexivity.
  - finish_cases; intros err H; try discriminate H; reflexivity.
Qed.

(** X5: [login] returns exactly when it sets the authenticated flag: a
    returned value is the envelope the server sent and the flag is then true;
    whenever [login] raises, whatever the exception, the flag is as before. *)
Theorem login_returns_iff_authenticates (env : Env) (self : AuthHandler) (w : World) :
  (forall v, fst (fst (run env (login self) w)) = Ok v ->
     is_authenticated (snd (fst (run env (login self) w))) = true /\
     exists response,
       transport env (wire w) (login_request (auth_config self)) = Responded response /\
       body response = Some v) /\
  (forall e, fst (fst (run env (login self) w)) = Raise e ->
     is_authenticated (snd (fst (run env (login self) w))) = is_authenticated self).
Proof.
  rewrite run_login. cbn [fst snd]. unfold is_authenticated.
  destruct (transport env (wire w) (login_request (auth_config self)))
    as [response | desc | e0]; cbn [fst snd]; split;
    try (intros; discriminate); try (intros; reflexivity).
  - intros v H. destruct (proj1 (login_finish_flag response self) v H) as [Ha Hb].
    split; [exact Ha |]. exists response. split; [reflexivity | exact Hb].
  - apply (proj2 (login_finish_flag response self)).
Qed.

(** X6: when the envelope passes the status checks and [data.user] is an
    object but [data.address] is present and not an object (for instance
    null), [login] raises [AttributeError] after it has already stored
    [user_id]: the handler is left with the new [user_id], the old
    [address_id] and the old authenticated flag. *)
Theorem login_half_assigned (env : Env) (self : AuthHandler) (w : World)
    (response : Response) (d ud u : list (string * value)) (x : value) :
  transport env (wire w) (login_request (auth_config self)) = Responded response ->
  py_in (VInt (status_code response)) [401; 403] = false ->
  body response = Some (VDict d) ->
  status_passes (dict_get d "status" VNone) ->
  dict_lookup "data" d = Some (VDict ud) ->
  dict_get ud "user" (VDict []) = VDict u ->
  dict_lookup "address" ud = Some x ->
  isinstance_dict x = false ->
  fst (run env (login self) w)
  = (Raise AttributeError,
     {| auth_config := auth_config self;
        user_id := dict_get u "id" VNone;
        address_id := address_id self;
        _authenticated := _authenticated self |}).
Proof.
  intros Hout Hs Hb Hp Hd Hu Ha Hx. rewrite run_login, Hout. cbn [fst snd].
  unfold login_finish, st_bind, st_lift, st_raise, st_ret, assign, response_json,
    of_option.
  rewrite Hs, Hb. cbn [py_get fst snd].
  assert (Hc : truthy (dict_get d "status" VNone)
               && py_in (dict_get d "status" VNone) [401; 403] = false
               /\ truthy (dict_get d "status" VNone)
                  && negb (py_in (dict_get d "status" VNone) [200; 202]) = false).
  { destruct Hp as [-> | [-> ->]]; [split; reflexivity |].
    rewrite !andb_false_r. split; reflexivity. }
  destruct Hc as [-> ->].
  assert (Hdata : dict_get d "data" (VDict []) = VDict ud).
  { unfold dict_get. rewrite Hd. reflexivity. }
  rewrite Hdata. cbn [py_get]. rewrite Hu. cbn [py_get].
  assert (Haddr : dict_get ud "address" (VDict []) = x).
  { unfold dict_get. rewrite Ha. reflexivity. }
  rewrite Haddr. destruct x; try discriminate Hx; reflexivity.
Qed.

(** X7: [logout] after [login] restores the handler as constructed, whatever
    [login] did (returned, raised, or stopped half way) and whatever the
    logout POST does; the two calls put exactly one request each on the wire,
    read no clock and never sleep. *)
Theorem logout_after_login_restores (env : Env) (config : KnusprConfig) (w : World) :
  let entered := run env (login (AuthHandler_init config)) w in
  let left := run env (logout (snd (fst entered))) (snd entered) in
  snd (fst left) = AuthHandler_init config /\
  wire (snd left) = logout_request config :: login_request config :: wire w /\
  clock (snd left) = clock w /\
  slept (snd left) = slept w.
Proof.
  cbn zeta. rewrite run_login. cbn [fst snd AuthHandler_init auth_config].
  rewrite run_logout. cbn [fst snd sent wire clock slept].
  assert (Hc : auth_config
                 (snd match transport env (wire w) (login_request config) with
                      | Responded response =>
                          login_finish response (AuthHandler_init config)
                      | RequestError desc =>
                          (Raise (NetworkError ("Login request failed: " ++ desc)),
                           AuthHandler_init config)
                      | OtherFailure e => (Raise e, AuthHandler_init config)
                      end) = config).
  { destruct (transport env (wire w) (login_request config));
      [apply login_finish_keeps_config | reflexivity | reflexivity]. }
  unfold AuthHandler_init in Hc |- *.
  unfold logout_reset, set_authenticated, set_address_id, set_user_id.
  cbn [auth_config user_id address_id _authenticated].
  rewrite Hc. repeat split; reflexivity.
Qed.

End MoreSessionProperties.

Lemma login_half_assigned_witness :
  fst (run (constant_server
              (json_response 200
                 (VDict [("data", VDict [("user", VDict [("id", VInt 5)]);
                                         ("address", VNone)])])))
           (login (ext := test_externals) (AuthHandler_init test_config))
           (world_at 0))
  = (Raise AttributeError,
     {| auth_config := test_config; user_id := VInt 5; address_id := VNone;
        _authenticated := false |}).
Proof.
  apply (login_half_assigned (ext := test_externals)
           (constant_server
              (json_response 200
                 (VDict [("data", VDict [("user", VDict [("id", VInt 5)]);
                                         ("address", VNone)])])))
           (AuthHandler_init test_config) (world_at 0)
           (json_response 200
              (VDict [("data", VDict [("user", VDict [("id", VInt 5)]);
                                      ("address", VNone)])]))
           [("data", VDict [("user", VDict [("id", VInt 5)]); ("address", VNone)])]
           [("user", VDict [("id", VInt 5)]); ("address", VNone)]
           [("id", VInt 5)] VNone);
    try reflexivity.
  left. reflexivity.
Defined.

(** ** The gateway, continued *)

Lemma first_content_raises (messages dflt : value) (e : exn) :
  (if truthy messages
   then (first <- py_getitem0 messages ;; py_get first "content" dflt)%result
   else Ok dflt) = Raise e ->
  e = IndexError \/ e = KeyError \/ e = TypeError \/ e = AttributeError.
Proof.
  destruct (truthy messages); [| discriminate].
  destruct (py_getitem0 messages) as [first |] eqn:Hf; cbn [rbind].
  - destruct first; cbn [py_get]; intros H; try discriminate H;
      injection H as <-; auto.
  - intros H. injection H as <-.
    destruct messages as [| b | n | f | s | l | d]; cbn in Hf;
      try (injection Hf as <-; auto).
    + destruct s; [injection Hf as <-; auto | discriminate Hf].
    + destruct l; [injection Hf as <-; auto | discriminate Hf].
Qed.

(** X8: what an outcome of [_handle_response] says about the response: a
    value comes back only on a 2xx status with an object body and is that
    body's [data] field or the body itself; [RateLimitError] only on 429;
    [AuthenticationError] only on 401 or 403; the transport library's status
    error only on a non-2xx status, which it carries; [APIError] only on a 2xx
    status, carrying an integer of 400 or more. *)
Theorem handle_response_outcome_sources (response : Response) :
  (forall v, _handle_response response = Ok v ->
     is_success response = true /\
     exists d, body response = Some (VDict d) /\ v = dict_get d "data" (VDict d)) /\
  (forall m, _handle_response response = Raise (RateLimitError m) ->
     status_code response = 429) /\
  (forall m, _handle_response response = Raise (AuthenticationError m) ->
     status_code response = 401 \/ status_code response = 403) /\
  (forall c, _handle_response response = Raise (HTTPStatusError c) ->
     c = status_code response /\ is_success response = false) /\
  (forall msg st, _handle_response response = Raise (APIError msg st) ->
     is_success response = true /\ exists n, st = VInt n /\ 400 <= n).
Proof.
  unfold _handle_response, raise_for_status, response_json, of_option.
  destruct (status_code response =? 429) eqn:H429.
  { apply Z.eqb_eq in H429.
    repeat split; intros; try discriminate; exact H429. }
  destruct (py_in (VInt (status_code response)) [401; 403]) eqn:H401.
  { unfold py_in, py_eq_int in H401. cbn [existsb] in H401.
    rewrite orb_false_r in H401. apply orb_true_iff in H401.
    repeat split; intros; try discriminate.
    destruct H401 as [E | E]; apply Z.eqb_eq in E; [left | right]; exact E. }
  destruct (is_success response) eqn:Hs; cbn [rbind].
  2: { repeat split; intros; try discriminate;
       match goal with Hx : Raise _ = Raise _ |- _ => injection Hx as <- end;
       reflexivity. }
  destruct (body response) as [b |]; cbn [rbind].
  2: { repeat split; intros; discriminate. }
  destruct b as [| b | n | f | s | l | d]; cbn [py_get rbind];
    try (repeat split; intros; discriminate).
  destruct (truthy (dict_get d "status" VNone)
            && isinstance_int (dict_get d "status" VNone)
            && py_int_ge (dict_get d "status" VNone) 400) eqn:Hc.
  - assert (Hn : exists n, dict_get d "status" VNone = VInt n /\ 400 <= n).
    { destruct (dict_get d "status" VNone) as [| b | n | f | s | l | d'];
        cbn in Hc; rewrite ?andb_false_r in Hc; try discriminate Hc.
      - destruct b; discriminate Hc.
      - exists n. split; [reflexivity |].
        apply andb_true_iff in Hc. destruct Hc as [_ Hc].
        apply Z.leb_le. exact Hc. }
    destruct (if truthy (dict_get d "messages" (VList [])) then _ else _)
      as [msg0 | e0] eqn:Hm; cbn [rbind].
    + repeat split; intros; try discriminate.
      match goal with Hx : Raise _ = Raise _ |- _ => injection Hx as _ <- end.
      exact Hn.
    + apply first_content_raises in Hm.
      repeat split; intros;
        match goal with
        | Hx : Raise _ = _ |- _ =>
            try discriminate Hx; injection Hx as ->;
            destruct Hm as [Hm | [Hm | [Hm | Hm]]]; discriminate Hm
        end.
  - repeat split; intros; try discriminate.
    match goal with Hx : Ok _ = Ok _ |- _ => injection Hx as <- end.
    exists d. split; reflexivity.
Qed.

Section MoreGatewayProperties.
Context {ext : Externals} {more : MoreExternals}.

(** The request that [_request] builds. *)
Lemma request_invariants (env : Env) (method path : string)
    (params : list (string * string)) (json : option value)
    (self : KnusprClient) (w : World) :
  let res := run env (_request method path params json self) w in
  let req := {| method := method; url := base_url (_config self) ++ path;
                params := params; json := json |} in
  _auth (snd (fst res)) = _auth self /\
  _http (snd (fst res)) = _http self /\
  _config (snd (fst res)) = _config self /\
  snd (fst res)
  = set_rate_limiter (snd (fst (run env (wait_sync (_rate_limiter self)) w))) self /\
  clock (snd res) = clock (snd (run env (wait_sync (_rate_limiter self)) w)) /\
  slept (snd res) = slept (snd (run env (wait_sync (_rate_limiter self)) w)) /\
  wire (snd res) = ((if _http self then [req] else []) ++ wire w)%list.
Proof.
  cbn zeta. rewrite run_request.
  pose proof (wait_run env Sync (_rate_limiter self) w) as (_ & _ & _ & Hw & _).
  cbn zeta in Hw. cbn [wait] in Hw.
  destruct (_http self) eqn:Hh;
    cbn [fst snd sent wire clock slept set_rate_limiter _auth _http _config app];
    rewrite ?Hw, ?Hh; repeat split; reflexivity.
Qed.

(** X9: a domain request issued before the client is entered raises the
    not-initialised error and sends nothing, but only after the pacer has
    run: the world is the one the wait alone leaves (it may have slept) and
    the pacer's timestamp has moved to the current clock reading. *)
Theorem request_before_enter_paces_first (env : Env) (method path : string)
    (params : list (string * string)) (json : option value)
    (self : KnusprClient) (w : World) :
  _http self = false ->
  fst (fst (run env (_request method path params json self) w))
  = Raise (KnusprError "Client not initialized. Use 'with KnusprClient() as client:'") /\
  snd (run env (_request method path params json self) w)
  = snd (run env (wait_sync (_rate_limiter self)) w) /\
  wire (snd (run env (_request method path params json self) w)) = wire w /\
  _last_request (_rate_limiter
                   (snd (fst (run env (_request method path params json self) w))))
  = clock (snd (run env (_request method path params json self) w)).
Proof.
  intros Hh. rewrite run_request, Hh. cbn [fst snd set_rate_limiter _rate_limiter].
  pose proof (wait_run env Sync (_rate_limiter self) w) as (_ & _ & Hl & Hw & _).
  cbn zeta in Hl, Hw. cbn [wait] in Hl, Hw.
  repeat split; assumption.
Qed.

(** X10: no outcome of a domain request touches the session: the handler
    (identifiers and authenticated flag), the transport and the configuration
    are as before, also after a 401 or 403 answer, and at most one request
    goes out. *)
Theorem request_keeps_session (env : Env) (method path : string)
    (params : list (string * string)) (json : option value)
    (self : KnusprClient) (w : World) :
  _auth (snd (fst (run env (_request method path params json self) w))) = _auth self /\
  _http (snd (fst (run env (_request method path params json self) w))) = _http self /\
  _config (snd (fst (run env (_request method path params json self) w)))
  = _config self /\
  (exists sent_now,
     wire (snd (run env (_request method path params json self) w))
     = sent_now ++ wire w /\ (List.length sent_now <= 1)%nat)%list.
Proof.
  pose proof (request_invariants env method path params json self w) as H.
  cbn zeta in H. destruct H as (Ha & Hh & Hc & _ & _ & _ & Hw).
  repeat split; try assumption.
  eexists. split; [exact Hw |]. destruct (_http self); cbn; lia.
Qed.

(** X11: when the transport raises a connection-level error, an entered
    client raises [NetworkError] whose message names the path and carries the
    transport's description; the failed request is on the wire once, nothing
    is retried. *)
Theorem request_network_error (env : Env) (method path : string)
    (params : list (string * string)) (json : option value)
    (self : KnusprClient) (w : World) (desc : string) :
  _http self = true ->
  transport env (wire w)
    {| method := method; url := base_url (_config self) ++ path;
       params := params; json := json |} = RequestError desc ->
  fst (fst (run env (_request method path params json self) w))
  = Raise (NetworkError ("Request to " ++ path ++ " failed: " ++ desc)) /\
  wire (snd (run env (_request method path params json self) w))
  = {| method := method; url := base_url (_config self) ++ path;
       params := params; json := json |} :: wire w.
Proof.
  intros Hh Ht. rewrite run_request, Hh. cbn [fst snd sent wire].
  pose proof (wait_run env Sync (_rate_limiter self) w) as (_ & _ & _ & Hw & _).
  cbn zeta in Hw. cbn [wait] in Hw. rewrite Hw, Ht. split; reflexivity.
Qed.

(** X12: every domain request runs the pacer once, with the blocking
    sleep, before anything else and whatever the outcome of the request: the
    pacer afterwards is the one a single [wait_sync] leaves, with the interval
    unchanged and its timestamp at the clock reading that ended the wait, so
    not ahead of the clock; the request sleeps at most once, through
    [time.sleep], for a positive time that is at most the interval whenever
    the timestamp was not ahead of the clock on entry. *)
Theorem request_runs_pacer_once (env : Env) (method path : string)
    (params : list (string * string)) (json : option value)
    (self : KnusprClient) (w : World) :
  let res := run env (_request method path params json self) w in
  let paced := run env (wait_sync (_rate_limiter self)) w in
  _rate_limiter (snd (fst res)) = snd (fst paced) /\
  _min_interval (_rate_limiter (snd (fst res))) = _min_interval (_rate_limiter self) /\
  _last_request (_rate_limiter (snd (fst res))) = clock (snd paced) /\
  (_last_request (_rate_limiter (snd (fst res))) <= clock (snd res))%Q /\
  exists new,
    slept (snd res) = (new ++ slept w)%list /\
    (List.length new <= 1)%nat /\
    Forall (fun p => fst p = Blocking /\ (0 < snd p)%Q /\
                     ((_last_request (_rate_limiter self) <= reading env w)%Q ->
                      (snd p <= _min_interval (_rate_limiter self))%Q)) new.
Proof.
  cbn zeta.
  pose proof (request_invariants env method path params json self w) as H.
  cbn zeta in H. destruct H as (_ & _ & _ & Hs & Hc & Hsl & _).
  rewrite Hs, Hc, Hsl. cbn [set_rate_limiter _rate_limiter].
  pose proof (wait_run env Sync (_rate_limiter self) w) as (_ & Hm & Hl & _ & Hslept).
  cbn zeta in Hm, Hl, Hslept. cbn [wait] in Hm, Hl, Hslept.
  split; [reflexivity |]. split; [exact Hm |]. split; [exact Hl |].
  split; [rewrite Hl; apply Qle_refl |].
  rewrite Hslept.
  destruct (Qlt_bool (reading env w - _last_request (_rate_limiter self))
                     (_min_interval (_rate_limiter self))) eqn:E.
  - apply Qlt_bool_true in E. eexists. split; [reflexivity |].
    split; [cbn; lia |]. constructor; [| constructor]. cbn [fst snd].
    split; [reflexivity |]. split; [lra | intros Hlast; lra].
  - exists []. split; [reflexivity |]. split; [cbn; lia | constructor].
Qed.

End MoreGatewayProperties.

Lemma request_before_enter_paces_first_witness :
  fst (fst (run unreachable_server
                (_request "GET" "/x" [] None
                          (KnusprClient_init default_config))
                (world_at 0)))
  = Raise (KnusprError "Client not initialized. Use 'with KnusprClient() as client:'") /\
  slept (snd (run unreachable_server
                  (_request "GET" "/x" [] None
                            (KnusprClient_init default_config))
                  (world_at 0)))
  = [(Blocking, 1 # 10)].
Proof.
  destruct (request_before_enter_paces_first unreachable_server "GET" "/x" [] None
              (KnusprClient_init default_config) (world_at 0) eq_refl)
    as (Hr & Hw & _).
  split; [exact Hr |]. rewrite Hw. vm_compute. reflexivity.
Defined.

Lemma request_network_error_witness :
  fst (fst (run unreachable_server
                (_request "GET" "/api/v3/orders/delivered"
                          [] None logged_in_client)
                (world_at (1000 # 1))))
  = Raise (NetworkError
             "Request to /api/v3/orders/delivered failed: Connection refused").
Proof.
  exact (proj1 (request_network_error unreachable_server
                  "GET" "/api/v3/orders/delivered" [] None logged_in_client
                  (world_at (1000 # 1)) "Connection refused" eq_refl eq_refl)).
Defined.

Section MoreOperations.
Context {ext : Externals} {more : MoreExternals}.

(** What an entered client gets from a transport that answers. *)
Lemma request_answered (env : Env) (method path : string)
    (params : list (string * string)) (json : option value)
    (self : KnusprClient) (w : World) (response : Response) :
  _http self = true ->
  transport env (wire w)
    {| method := method; url := base_url (_config self) ++ path;
       params := params; json := json |} = Responded response ->
  fst (fst (run env (_request method path params json self) w))
  = _handle_response response /\
  wire (snd (run env (_request method path params json self) w))
  = {| method := method; url := base_url (_config self) ++ path;
       params := params; json := json |} :: wire w.
Proof.
  intros Hh Ht. rewrite run_request, Hh. cbn [fst snd sent wire].
  pose proof (wait_run env Sync (_rate_limiter self) w) as (_ & _ & _ & Hw & _).
  cbn zeta in Hw. cbn [wait] in Hw. rewrite Hw, Ht. split; reflexivity.
Qed.

Lemma run_then_lift {A B : Type} (env : Env) (m : cmd KnusprClient A)
    (f : A -> result B) (self : KnusprClient) (w : World) :
  run env (bind m (fun a => lift (f a)) self) w
  = ((rbind (fst (fst (run env (m self) w))) f, snd (fst (run env (m self) w))),
     snd (run env (m self) w)).
Proof.
  rewrite run_bind. destruct (run env (m self) w) as [[r s] w']. cbn [fst snd].
  destruct r; reflexivity.
Qed.

Lemma run_then_ret {A B : Type} (env : Env) (m : cmd KnusprClient A) (b : B)
    (self : KnusprClient) (w : World) :
  run env (bind m (fun _ => ret b) self) w
  = ((rbind (fst (fst (run env (m self) w))) (fun _ => Ok b),
      snd (fst (run env (m self) w))),
     snd (run env (m self) w)).
Proof.
  rewrite run_bind. destruct (run env (m self) w) as [[r s] w']. cbn [fst snd].
  destruct r; reflexivity.
Qed.

(** *** Cart mutations *)

(** X13: on an entered client, [add_to_cart] sends one POST to the cart path
    whose JSON body carries the given product id and quantity, with
    [actionId] and [recipeId] null; on a 2xx answer with an object body that
    reports no inner error it returns the product id it was given, whatever
    the payload says. *)
Theorem add_to_cart_returns_its_argument (env : Env) (self : KnusprClient)
    (w : World) (product_id quantity : Z) (response : Response)
    (d : list (string * value)) :
  _http self = true ->
  transport env (wire w)
    {| method := "POST"; url := base_url (_config self) ++ CART; params := [];
       json := Some (VDict [("actionId", VNone); ("productId", VInt product_id);
                            ("quantity", VInt quantity); ("recipeId", VNone);
                            ("source", VStr "true:Search Results")]) |}
  = Responded response ->
  is_success response = true ->
  body response = Some (VDict d) ->
  no_inner_error d ->
  fst (fst (run env (add_to_cart product_id quantity self) w)) = Ok product_id /\
  wire (snd (run env (add_to_cart product_id quantity self) w))
  = {| method := "POST"; url := base_url (_config self) ++ CART; params := [];
       json := Some (VDict [("actionId", VNone); ("productId", VInt product_id);
                            ("quantity", VInt quantity); ("recipeId", VNone);
                            ("source", VStr "true:Search Results")]) |} :: wire w.
Proof.
  intros Hh Ht Hs Hb Hn. unfold add_to_cart. rewrite run_then_ret. cbn [fst snd].
  unfold _post, add_to_cart_payload.
  destruct (request_answered env "POST" CART [] _ self w response Hh Ht) as [Hr Hw].
  rewrite Hr, Hw.
  rewrite (handle_response_object response d Hs Hb). cbn zeta.
  rewrite (no_inner_error_test d Hn). split; reflexivity.
Qed.

(** X14: on an entered client, [remove_from_cart] sends one DELETE to the
    cart path with the token as the [orderFieldId] query parameter and no
    body; on a 2xx answer with an object body that reports no inner error it
    returns [True] without looking at the payload. *)
Theorem remove_from_cart_reports_true (env : Env) (self : KnusprClient)
    (w : World) (order_field_id : string) (response : Response)
    (d : list (string * value)) :
  _http self = true ->
  transport env (wire w)
    {| method := "DELETE"; url := base_url (_config self) ++ CART;
       params := [("orderFieldId", order_field_id)]; json := None |}
  = Responded response ->
  is_success response = true ->
  body response = Some (VDict d) ->
  no_inner_error d ->
  fst (fst (run env (remove_from_cart order_field_id self) w)) = Ok true /\
  wire (snd (run env (remove_from_cart order_field_id self) w))
  = {| method := "DELETE"; url := base_url (_config self) ++ CART;
       params := [("orderFieldId", order_field_id)]; json := None |} :: wire w.
Proof.
  intros Hh Ht Hs Hb Hn. unfold remove_from_cart. rewrite run_then_ret.
  cbn [fst snd]. unfold _delete.
  destruct (request_answered env "DELETE" CART _ None self w response Hh Ht)
    as [Hr Hw].
  rewrite Hr, Hw. rewrite (handle_response_object response d Hs Hb). cbn zeta.
  rewrite (no_inner_error_test d Hn). split; reflexivity.
Qed.

(** *** Reading the cart *)

Lemma dict_lookup_set_same (d : list (string * value)) (k : string) (v : value) :
  dict_lookup k (dict_set d k v) = Some v.
Proof.
  induction d as [| [k' v'] d IH]; cbn [dict_set dict_lookup].
  - rewrite String.eqb_refl. reflexivity.
  - destruct (String.eqb k' k) eqn:E; cbn [dict_lookup]; rewrite E;
      [reflexivity | exact IH].
Qed.

Lemma dict_lookup_set_other (d : list (string * value)) (k k0 : string) (v : value) :
  k0 <> k -> dict_lookup k0 (dict_set d k v) = dict_lookup k0 d.
Proof.
  intros Hk. induction d as [| [k' v'] d IH]; cbn [dict_set dict_lookup].
  - destruct (String.eqb_spec k k0); [congruence | reflexivity].
  - destruct (String.eqb_spec k' k) as [-> | Hne]; cbn [dict_lookup].
    + destruct (String.eqb_spec k k0); [congruence | reflexivity].
    + destruct (String.eqb k' k0); [reflexivity | exact IH].
Qed.

Lemma dict_set_keys (d : list (string * value)) (k : string) (v : value) :
  dict_lookup k d <> None -> map fst (dict_set d k v) = map fst d.
Proof.
  induction d as [| [k' v'] d IH]; cbn [dict_set dict_lookup map fst].
  - intros H. contradiction H. reflexivity.
  - destruct (String.eqb k' k); cbn [map fst]; intros H; [reflexivity |].
    rewrite (IH H). reflexivity.
Qed.

(** X15: for an entry of a mapping-shaped [items] whose key [int] accepts,
    the record handed to validation has [productId] equal to that integer,
    also when the entry carried a [productId] of its own, and every other
    field of the entry as the server sent it; an entry that already had the
    field keeps its field order. *)
Theorem injected_key_wins (k : string) (n : Z) (d : list (string * value)) :
  py_int k = Some n ->
  exists d',
    inject_and_validate (k, VDict d) = validate_CartItem (VDict d') /\
    dict_lookup "productId" d' = Some (VInt n) /\
    (forall key, key <> "productId" -> dict_lookup key d' = dict_lookup key d) /\
    (dict_lookup "productId" d <> None -> map fst d' = map fst d).
Proof.
  intros Hk. exists (dict_set d "productId" (VInt n)). split; [| split; [| split]].
  - unfold inject_and_validate, validate_CartItem. cbn [fst snd]. rewrite Hk.
    reflexivity.
  - apply dict_lookup_set_same.
  - intros key Hne. apply dict_lookup_set_other. exact Hne.
  - apply dict_set_keys.
Qed.

Lemma mapM_app_fail {A B : Type} (f : A -> result B) (good : list A) (bad : A)
    (rest : list A) (ys : list B) (e : exn) :
  mapM f good = Ok ys -> f bad = Raise e ->
  mapM f (good ++ bad :: rest) = Raise e.
Proof.
  revert ys. induction good as [| x good IH]; intros ys Hg Hb; cbn [app mapM].
  - rewrite Hb. reflexivity.
  - cbn [mapM] in Hg. destruct (f x) as [y |]; cbn [rbind] in Hg |- *;
      [| discriminate Hg].
    destruct (mapM f good) as [ys' |] eqn:Hm; cbn [rbind] in Hg; [| discriminate Hg].
    rewrite (IH ys' eq_refl Hb). reflexivity.
Qed.

(** X16: [get_cart] is all or nothing.  When the entries of a mapping-shaped
    [items] before some entry all convert and that entry does not (its key is
    not an integer, it is not an object, or it fails validation), parsing
    raises that entry's exception: no partial cart comes back and the entries
    after it are not looked at. *)
Theorem parse_cart_stops_at_first_bad_entry (d : list (string * value))
    (good : list (string * value)) (bad : string * value)
    (rest : list (string * value)) (its : list CartItem) (e : exn) :
  dict_lookup "items" d = Some (VDict (good ++ bad :: rest)) ->
  mapM inject_and_validate good = Ok its ->
  inject_and_validate bad = Raise e ->
  parse_cart (VDict d) = Raise e.
Proof.
  intros Hi Hg Hb.
  assert (Hget : dict_get d "items" (VDict []) = VDict (good ++ bad :: rest)).
  { unfold dict_get. rewrite Hi. reflexivity. }
  rewrite (proj1 (parse_cart_shapes d) _ Hget).
  rewrite (mapM_app_fail inject_and_validate good bad rest its e Hg Hb).
  reflexivity.
Qed.

(** X17: when [items] is missing, empty, or neither a mapping nor a
    sequence (null, a number, a string), [get_cart] builds a cart with no
    items and [total_items] zero from the other two fields. *)
Theorem parse_cart_without_items (d : list (string * value)) :
  dict_lookup "items" d = None \/
  dict_lookup "items" d = Some (VDict []) \/
  dict_lookup "items" d = Some (VList []) \/
  (exists x, dict_lookup "items" d = Some x /\
             isinstance_dict x = false /\ isinstance_list x = false) ->
  parse_cart (VDict d)
  = Cart_new (dict_get d "totalPrice" (VFloat 0%float)) 0
             (dict_get d "canMakeOrder" (VBool false)) [].
Proof.
  intros H. unfold parse_cart. cbn [py_get rbind]. unfold dict_get at 1.
  destruct H as [-> | [-> | [-> | (x & -> & Hd & Hl)]]]; try reflexivity.
  destruct x; try discriminate Hd; try discriminate Hl; reflexivity.
Qed.

End MoreOperations.

Section MoreOperations2.
Context {ext : Externals} {more : MoreExternals}.

(** *** Orders *)

(** X18: [get_order_history] and [get_upcoming_orders] share one reading of
    the response: a list, or an object whose [orders] field is a list, gives
    one [Order] per entry, in order, each the validation of its entry; an
    object without [orders] gives the empty list; and the two operations
    differ only in the request they send. *)
Theorem orders_one_per_entry (env : Env) (self : KnusprClient) (w : World)
    (limit offset : Z) :
  (forall l orders, parse_orders (VList l) = Ok orders ->
     Forall2 (fun o r => Order_model_validate o = Some r) l orders) /\
  (forall d l, dict_lookup "orders" d = Some (VList l) ->
     parse_orders (VDict d) = parse_orders (VList l)) /\
  (forall d, dict_lookup "orders" d = None -> parse_orders (VDict d) = Ok []) /\
  fst (fst (run env (get_order_history limit offset self) w))
  = rbind (fst (fst (run env (_get DELIVERED_ORDERS
                                   [("offset", py_str (VInt offset));
                                    ("limit", py_str (VInt limit))] self) w)))
          parse_orders /\
  fst (fst (run env (get_upcoming_orders self) w))
  = rbind (fst (fst (run env (_get UPCOMING_ORDERS [] self) w))) parse_orders.
Proof.
  split; [| split; [| split; [| split]]].
  - intros l orders H. unfold parse_orders in H. cbn [isinstance_list rbind py_iter] in H.
    apply mapM_Forall2 in H.
    induction H as [| o r l orders Hor _ IH]; constructor; [| exact IH].
    destruct (Order_model_validate o); [| discriminate Hor].
    injection Hor as <-. reflexivity.
  - intros d l H. unfold parse_orders. cbn [isinstance_list py_get rbind].
    unfold dict_get. rewrite H. reflexivity.
  - intros d H. unfold parse_orders. cbn [isinstance_list py_get rbind].
    unfold dict_get. rewrite H. reflexivity.
  - unfold get_order_history. rewrite run_then_lift. reflexivity.
  - unfold get_upcoming_orders. rewrite run_then_lift. reflexivity.
Qed.

(** *** The aggregate *)

Lemma get_keeps_auth {A : Type} (env : Env) (path : string)
    (params : list (string * string)) (f : value -> result A)
    (self : KnusprClient) (w : World) :
  let res := run env (bind (_get path params) (fun data => lift (f data)) self) w in
  _auth (snd (fst res)) = _auth self /\ _http (snd (fst res)) = _http self /\
  _config (snd (fst res)) = _config self.
Proof.
  cbn zeta. rewrite run_then_lift. cbn [fst snd]. unfold _get.
  pose proof (request_invariants env "GET" path params None self w) as H.
  cbn zeta in H. destruct H as (Ha & Hh & Hc & _).
  repeat split; assumption.
Qed.

(** X19: [get_account_data] asks for the premium profile first and for the
    cart second, and stops at the first failure: if the premium call raises,
    the same exception comes out and client and world are as that call left
    them, so the cart is never requested; if it returns and the cart call
    raises, that exception comes out; if both return, the result is the
    aggregate of the two records with the identifiers the handler held before
    the call. *)
Theorem get_account_data_in_order (env : Env) (self : KnusprClient) (w : World) :
  let first := run env (get_premium_info self) w in
  let second := run env (get_cart (snd (fst first))) (snd first) in
  (forall e, fst (fst first) = Raise e ->
     run env (get_account_data self) w = ((Raise e, snd (fst first)), snd first)) /\
  (forall premium e, fst (fst first) = Ok premium -> fst (fst second) = Raise e ->
     run env (get_account_data self) w = ((Raise e, snd (fst second)), snd second)) /\
  (forall premium cart, fst (fst first) = Ok premium -> fst (fst second) = Ok cart ->
     run env (get_account_data self) w
     = ((AccountData_new (user_id (_auth self)) (address_id (_auth self)) premium cart,
         snd (fst second)), snd second)).
Proof.
  cbn zeta. unfold get_account_data. rewrite run_bind.
  assert (Ha1 : _auth (snd (fst (run env (get_premium_info self) w))) = _auth self).
  { pose proof (get_keeps_auth env PREMIUM_PROFILE []
                  (fun data => of_option (PremiumProfile_model_validate data)
                                         ValidationError) self w) as H1.
    cbn zeta in H1. exact (proj1 H1). }
  destruct (run env (get_premium_info self) w) as [[r1 s1] w1]. cbn [fst snd] in *.
  split; [| split].
  - intros e ->. reflexivity.
  - intros premium e -> H2. rewrite run_bind.
    destruct (run env (get_cart s1) w1) as [[r2 s2] w2]. cbn [fst snd] in *.
    rewrite H2. reflexivity.
  - intros premium cart -> H2. rewrite run_bind.
    assert (Ha2 : _auth (snd (fst (run env (get_cart s1) w1))) = _auth s1).
    { pose proof (get_keeps_auth env CART [] parse_cart s1 w1) as H3.
      cbn zeta in H3. exact (proj1 H3). }
    destruct (run env (get_cart s1) w1) as [[r2 s2] w2]. cbn [fst snd] in *.
    rewrite H2. rewrite run_bind. cbn [get run fst snd lift].
    rewrite Ha2, Ha1. reflexivity.
Qed.

(** *** Entering and leaving the client *)

Lemma run_client_enter (env : Env) (self : KnusprClient) (w : World) :
  run env (client_enter self) w
  = ((rbind (fst (fst (run env (login (_auth self)) w))) (fun _ => Ok tt),
      set_auth (snd (fst (run env (login (_auth self)) w))) (set_http true self)),
     snd (run env (login (_auth self)) w)).
Proof.
  unfold client_enter. rewrite run_bind. cbn [get run fst snd].
  rewrite run_bind. cbn [put run fst snd]. rewrite run_bind, run_zoom.
  cbn [fst snd set_http _auth].
  destruct (fst (fst (run env (login (_auth self)) w))); reflexivity.
Qed.

Lemma run_client_exit (env : Env) (self : KnusprClient) (w : World) :
  run env (client_exit self) w
  = if _http self
    then ((fst (fst (run env (logout (_auth self)) w)),
           set_http false (set_auth (snd (fst (run env (logout (_auth self)) w))) self)),
          snd (run env (logout (_auth self)) w))
    else ((Ok tt, self), w).
Proof.
  unfold client_exit. destruct (_http self); [| reflexivity].
  unfold try_finally. rewrite run_prog_bind, run_zoom. reflexivity.
Qed.

(** X20: [__enter__] opens the transport before it logs in and nothing
    closes it again: when [login] raises, the exception leaves [__enter__]
    with the transport still open and the handler as [login] left it. *)
Theorem enter_leaves_transport_open (env : Env) (self : KnusprClient) (w : World) :
  _http (snd (fst (run env (client_enter self) w))) = true /\
  _auth (snd (fst (run env (client_enter self) w)))
  = snd (fst (run env (login (_auth self)) w)) /\
  (forall e, fst (fst (run env (login (_auth self)) w)) = Raise e ->
     fst (fst (run env (client_enter self) w)) = Raise e) /\
  (forall v, fst (fst (run env (login (_auth self)) w)) = Ok v ->
     fst (fst (run env (client_enter self) w)) = Ok tt).
Proof.
  rewrite run_client_enter. cbn [fst snd set_auth set_http _http _auth].
  repeat split; intros; match goal with Hx : _ = _ |- _ => rewrite Hx end;
    reflexivity.
Qed.

(** X21: [__exit__] always leaves the transport closed.  On an open client
    it logs out, so the handler is reset, also when the logout POST raises;
    on a client that is not open it does nothing at all, so leaving a second
    time sends nothing and changes nothing. *)
Theorem exit_closes_and_is_idempotent (env : Env) (self : KnusprClient) (w : World) :
  let left := run env (client_exit self) w in
  _http (snd (fst left)) = false /\
  (_http self = true ->
   _auth (snd (fst left)) = AuthHandler_init (auth_config (_auth self)) /\
   wire (snd left) = logout_request (auth_config (_auth self)) :: wire w) /\
  (_http self = false -> left = ((Ok tt, self), w)) /\
  run env (client_exit (snd (fst left))) (snd left) = ((Ok tt, snd (fst left)), snd left).
Proof.
  cbn zeta. rewrite !run_client_exit. destruct (_http self) eqn:Hh.
  - cbn [fst snd set_http _http _auth set_auth]. rewrite run_logout.
    cbn [fst snd sent wire]. repeat split; intros; try discriminate; reflexivity.
  - cbn [fst snd]. rewrite Hh. repeat split; intros; try discriminate; reflexivity.
Qed.

Lemma login_keeps_config_and_world (env : Env) (a : AuthHandler) (w : World) :
  auth_config (snd (fst (run env (login a) w))) = auth_config a /\
  snd (run env (login a) w) = sent (login_request (auth_config a)) w.
Proof.
  rewrite run_login. cbn [fst snd]. split; [| reflexivity].
  destruct (transport env (wire w) (login_request (auth_config a)));
    [apply login_finish_keeps_config | reflexivity | reflexivity].
Qed.

(** X22: logging in and out bypasses the pacer: entering and then leaving
    the client reads no clock, never sleeps, leaves the pacer as it was and
    puts exactly the login and the logout request on the wire, whatever the
    server answers. *)
Theorem with_block_bypasses_pacer (env : Env) (config : KnusprConfig) (w : World) :
  let entered := run env (client_enter (KnusprClient_init config)) w in
  let left := run env (client_exit (snd (fst entered))) (snd entered) in
  _rate_limiter (snd (fst entered)) = RateLimiter_init (min_request_interval config) /\
  _rate_limiter (snd (fst left)) = RateLimiter_init (min_request_interval config) /\
  clock (snd left) = clock w /\
  slept (snd left) = slept w /\
  wire (snd left) = logout_request config :: login_request config :: wire w.
Proof.
  cbn zeta. rewrite run_client_enter.
  cbn [fst snd KnusprClient_init _auth set_http set_auth].
  rewrite run_client_exit. cbn [_http _auth _rate_limiter fst snd set_http set_auth].
  rewrite run_logout. cbn [fst snd sent wire clock slept].
  destruct (login_keeps_config_and_world env (AuthHandler_init config) w) as [Hc Hw].
  rewrite Hc, Hw. cbn [AuthHandler_init auth_config sent wire clock slept].
  repeat split; reflexivity.
Qed.

End MoreOperations2.

Section MoreOperations3.
Context {ext : Externals} {more : MoreExternals}.

(** *** Search and delivery slots at the edges *)

(** X23: when the unwrapped search response has no [productList], or has
    one that is an empty list, an empty object or an empty string,
    [search_products] returns the empty list. *)
Theorem search_products_without_list (env : Env) (query : string) (limit : Z)
    (self : KnusprClient) (w : World) (d : list (string * value)) :
  fst (fst (run env (_get SEARCH (search_params query limit) self) w)) = Ok (VDict d) ->
  dict_lookup "productList" d = None \/
  dict_lookup "productList" d = Some (VList []) \/
  dict_lookup "productList" d = Some (VDict []) \/
  dict_lookup "productList" d = Some (VStr "") ->
  fst (fst (run env (search_products query limit self) w)) = Ok [].
Proof.
  intros Hget H. rewrite run_search_products. cbn [fst snd]. rewrite Hget.
  cbn [rbind py_get]. unfold dict_get.
  destruct H as [-> | [-> | [-> | ->]]]; reflexivity.
Qed.

(** X24: [get_delivery_slots] refuses to build a request exactly when one of
    the two identifiers is falsy: [None], but also [0], an empty string or an
    empty container.  In that case it is the computation that raises at once,
    and in no other case. *)
Theorem get_delivery_slots_refuses_iff_falsy (self : KnusprClient) :
  get_delivery_slots self
  = Ret (Raise (KnusprError "user_id and address_id required. Are you logged in?"),
         self)
  <-> truthy (user_id (_auth self)) = false \/ truthy (address_id (_auth self)) = false.
Proof.
  unfold get_delivery_slots, bind, get. cbn [prog_bind fst snd].
  destruct (truthy (user_id (_auth self))) eqn:Hu;
    destruct (truthy (address_id (_auth self))) eqn:Ha; cbn [negb orb].
  - split; [| intros [H | H]; discriminate H].
    unfold _get, _request, bind, zoom, wait_sync. cbn [prog_bind].
    intros H. discriminate H.
  - split; [right | ]; reflexivity.
  - split; [left | ]; reflexivity.
  - split; [left | ]; reflexivity.
Qed.

(** *** models.py *)

(** [all_products] never merges the two sequences: it is [products]
    whenever that is not empty, ignoring [items], and [items] otherwise; so
    it is empty exactly when both are. *)
Theorem all_products_never_merges (o : Order) :
  (o_products o <> [] -> all_products o = o_products o) /\
  (o_products o = [] -> all_products o = o_items o) /\
  (all_products o = [] <-> o_products o = [] /\ o_items o = []).
Proof.
  unfold all_products. destruct (o_products o) as [| p ps].
  - split; [| split; [| split]].
    + intros H. contradiction H. reflexivity.
    + reflexivity.
    + intros H. split; [reflexivity | exact H].
    + intros [_ H]. exact H.
  - split; [| split; [| split]].
    + reflexivity.
    + discriminate.
    + discriminate.
    + intros [H _]. discriminate H.
Qed.

(** X25: what [price_value] hands to [float]: for a composite price its
    [full] field as it is, also when that is null, and [0] when the field is
    missing (an empty object included); for any other price the price itself
    when it is truthy and [0] when it is falsy (null, zero, an empty
    string). *)
Theorem price_value_argument (self : SearchResult) :
  (forall d x, sr_price self = VDict d -> dict_lookup "full" d = Some x ->
     price_value self = py_float x) /\
  (forall d, sr_price self = VDict d -> dict_lookup "full" d = None ->
     price_value self = py_float (VInt 0)) /\
  (isinstance_dict (sr_price self) = false -> truthy (sr_price self) = true ->
   price_value self = py_float (sr_price self)) /\
  (isinstance_dict (sr_price self) = false -> truthy (sr_price self) = false ->
   price_value self = py_float (VInt 0)).
Proof.
  unfold price_value. repeat split.
  - intros d x -> Hx. unfold dict_get. rewrite Hx. reflexivity.
  - intros d -> Hx. unfold dict_get. rewrite Hx. reflexivity.
  - intros Hd Ht. destruct (sr_price self); try discriminate Hd;
      rewrite Ht; reflexivity.
  - intros Hd Ht. destruct (sr_price self); try discriminate Hd;
      rewrite Ht; reflexivity.
Qed.

(** *** Constructing the client *)

(** X26: a configuration passed to the constructor wins over [username] and
    [password]; without one, an empty [username] or [password] is treated as
    not given; and every new client is closed and anonymous, with a pacer
    that has the configuration's interval and a handler that shares the
    client's configuration. *)
Theorem client_new_config_wins (username password : option string)
    (config : option KnusprConfig) :
  (forall c, config = Some c ->
     KnusprClient_new username password config = KnusprClient_init c) /\
  KnusprClient_new (Some "") password None = KnusprClient_new None password None /\
  KnusprClient_new username (Some "") None = KnusprClient_new username None None /\
  (let client := KnusprClient_new username password config in
   _http client = false /\
   is_authenticated (_auth client) = false /\
   user_id (_auth client) = VNone /\ address_id (_auth client) = VNone /\
   _min_interval (_rate_limiter client) = min_request_interval (_config client) /\
   auth_config (_auth client) = _config client).
Proof.
  split; [| split; [| split]].
  - intros c ->. reflexivity.
  - reflexivity.
  - unfold KnusprClient_new. cbn [given String.eqb negb]. reflexivity.
  - cbn zeta. unfold KnusprClient_new. destruct config; repeat split; reflexivity.
Qed.

End MoreOperations3.

(** ** The further properties at sample inputs *)

Lemma add_to_cart_returns_its_argument_witness :
  fst (fst (run (constant_server (json_response 200 (VDict [("status", VInt 200);
                                                            ("data", VDict [])])))
                (add_to_cart (ext := test_externals) 1001 2 logged_in_client)
                (world_at (1000 # 1))))
  = Ok 1001.
Proof.
  exact (proj1 (add_to_cart_returns_its_argument (ext := test_externals)
                  (constant_server (json_response 200 (VDict [("status", VInt 200);
                                                              ("data", VDict [])])))
                  logged_in_client (world_at (1000 # 1)) 1001 2
                  (json_response 200 (VDict [("status", VInt 200); ("data", VDict [])]))
                  [("status", VInt 200); ("data", VDict [])]
                  eq_refl eq_refl eq_refl eq_refl
                  ltac:(intros n Hn; vm_compute in Hn; injection Hn as <-; lia))).
Defined.

Lemma remove_from_cart_reports_true_witness :
  fst (fst (run (constant_server (json_response 200 (VDict [("status", VInt 200);
                                                            ("data", VDict [])])))
                (remove_from_cart (ext := test_externals) "of-abc-123" logged_in_client)
                (world_at (1000 # 1))))
  = Ok true.
Proof.
  exact (proj1 (remove_from_cart_reports_true (ext := test_externals)
                  (constant_server (json_response 200 (VDict [("status", VInt 200);
                                                              ("data", VDict [])])))
                  logged_in_client (world_at (1000 # 1)) "of-abc-123"
                  (json_response 200 (VDict [("status", VInt 200); ("data", VDict [])]))
                  [("status", VInt 200); ("data", VDict [])]
                  eq_refl eq_refl eq_refl eq_refl
                  ltac:(intros n Hn; vm_compute in Hn; injection Hn as <-; lia))).
Defined.

Lemma injected_key_wins_witness :
  exists d',
    inject_and_validate (ext := test_externals)
      ("1001", VDict [("orderFieldId", VStr "of-abc-123"); ("productId", VInt 7)])
    = validate_CartItem (ext := test_externals) (VDict d') /\
    dict_lookup "productId" d' = Some (VInt 1001) /\
    dict_lookup "orderFieldId" d' = Some (VStr "of-abc-123").
Proof.
  destruct (injected_key_wins (ext := test_externals) "1001" 1001
              [("orderFieldId", VStr "of-abc-123"); ("productId", VInt 7)] eq_refl)
    as (d' & H1 & H2 & H3 & _).
  exists d'. split; [exact H1 |]. split; [exact H2 |].
  rewrite (H3 "orderFieldId" ltac:(discriminate)). reflexivity.
Defined.

Lemma parse_cart_stops_at_first_bad_entry_witness :
  parse_cart (ext := test_externals)
    (VDict [("items", VDict [("1001", VDict [("orderFieldId", VStr "of-abc-123")]);
                             ("abc", VDict [("orderFieldId", VStr "of-def-456")]);
                             ("1003", VNone)])])
  = Raise ValueError.
Proof.
  apply (parse_cart_stops_at_first_bad_entry (ext := test_externals)
           [("items", VDict [("1001", VDict [("orderFieldId", VStr "of-abc-123")]);
                             ("abc", VDict [("orderFieldId", VStr "of-def-456")]);
                             ("1003", VNone)])]
           [("1001", VDict [("orderFieldId", VStr "of-abc-123")])]
           ("abc", VDict [("orderFieldId", VStr "of-def-456")])
           [("1003", VNone)]
           [{| ci_order_field_id := "of-abc-123"; ci_product_id := 1001;
               ci_product_name := ""; ci_quantity := 0; ci_price := 0%float;
               ci_primary_category_name := ""; ci_brand := ""; ci_extra := [] |}]
           ValueError); reflexivity.
Defined.

Lemma parse_cart_without_items_witness :
  parse_cart (ext := test_externals)
    (VDict [("totalPrice", VFloat 0%float); ("items", VNone)])
  = Ok {| total_price := 0%float; total_items := 0; can_make_order := false;
          items := [] |}.
Proof.
  rewrite (parse_cart_without_items (ext := test_externals)
             [("totalPrice", VFloat 0%float); ("items", VNone)]
             ltac:(right; right; right; exists VNone; repeat split; reflexivity)).
  reflexivity.
Defined.

Lemma parse_cart_reads_three_fields_witness :
  parse_cart (ext := test_externals) (VDict cart_data)
  = parse_cart (ext := test_externals)
      (VDict [("items", VDict [("1001", VDict [("orderFieldId", VStr "of-abc-123")]);
                               ("1002", VDict [("orderFieldId", VStr "of-def-456")])]);
              ("canMakeOrder", VBool true);
              ("totalPrice", VFloat 4.27%float);
              ("totalItems", VInt 0)]).
Proof.
  apply (parse_cart_reads_three_fields (ext := test_externals)); reflexivity.
Defined.

Lemma search_products_without_list_witness :
  fst (fst (run (constant_server (json_response 200 (VDict [("status", VInt 200);
                                                            ("data", VDict [("totalCount", VInt 0)])])))
                (search_products (ext := test_externals) "nonexistent" 10
                                 logged_in_client)
                (world_at (1000 # 1))))
  = Ok [].
Proof.
  apply (search_products_without_list (ext := test_externals)
           (constant_server (json_response 200 (VDict [("status", VInt 200);
                                                       ("data", VDict [("totalCount", VInt 0)])])))
           "nonexistent" 10 logged_in_client (world_at (1000 # 1))
           [("totalCount", VInt 0)] eq_refl).
  left. reflexivity.
Defined.

(** ** More of the package's tests, replayed on the model *)

Example test_add_to_cart_and_remove :
  let env := constant_server (json_response 200 (VDict [("status", VInt 200);
                                                        ("data", VDict [])])) in
  fst (fst (run env (add_to_cart (ext := test_externals) 1001 2 logged_in_client)
                (world_at (1000 # 1)))) = Ok 1001 /\
  fst (fst (run env (remove_from_cart (ext := test_externals) "of-abc-123"
                                      logged_in_client)
                (world_at (1000 # 1)))) = Ok true.
Proof. vm_compute. split; reflexivity. Qed.

Example test_get_order_history :
  match fst (fst (run (constant_server
                         (json_response 200
                            (VDict [("status", VInt 200);
                                    ("data", VList [VDict [("id", VStr "ord-001")];
                                                    VDict [("id", VStr "ord-002")]])])))
                      (get_order_history (ext := test_externals) (more := test_more)
                                         10 0 logged_in_client)
                      (world_at (1000 # 1)))) with
  | Ok orders => map o_id orders
  | Raise _ => []
  end
  = [Some (inl "ord-001"); Some (inl "ord-002")].
Proof. vm_compute. reflexivity. Qed.

Example test_account_data :
  let env := routed_server
               [("/premium/profile",
                 json_response 200 (VDict [("is_premium", VBool true)]));
                ("/v2/cart", json_response 200 cart_response)] in
  match fst (fst (run env (get_account_data (ext := test_externals) (more := test_more)
                                            logged_in_client)
                      (world_at (1000 # 1)))) with
  | Ok data => (ad_user_id data, ad_address_id data,
                option_map is_premium (ad_premium data),
                option_map total_items (ad_cart data))
  | Raise _ => (None, None, None, None)
  end
  = (Some 12345, Some 67890, Some true, Some 2).
Proof. vm_compute. reflexivity. Qed.
